(** * A shallow embedding of pgtest (src/pgtest/pgtest.py and the legacy
    module src/pgtest.py).

    Python values, Python exceptions and the side effects of the fixture
    (file system, shell commands, database connections, clock, sockets)
    are modelled explicitly.  Methods of [PGTest] are functions in a small
    state-and-exception monad [M]; everything the code obtains from the
    operating system (results of shell commands, of [pg8000.connect], the
    ports handed out by [bind(('localhost', 0))], the names [mkdtemp]
    picks) is read from an environment record [Env] or consumed from the
    world [World]. *)

From Stdlib Require Import String Ascii ZArith Bool List Lia.
From stdpp Require Import base gmap sets strings pretty.

Open Scope Z_scope.

(* ------------------------------------------------------------------ *)
(** ** Python values *)

(** The values the functions under study receive.  [PyObj ty truthy]
    stands for any other object (a float, a list, ...) whose type is not
    a subclass of [int], [str] or [bytes]; only its truthiness matters
    to the code. *)
Inductive pyval :=
| PyNone
| PyBool (b : bool)
| PyInt (z : Z)
| PyStr (s : string)
| PyBytes (s : string)
| PyObj (ty : string) (truthy : bool).

(** [bool(v)] *)
Definition py_truthy (v : pyval) : bool :=
  match v with
  | PyNone => false
  | PyBool b => b
  | PyInt z => negb (Z.eqb z 0)
  | PyStr s | PyBytes s => negb (String.eqb s EmptyString)
  | PyObj _ t => t
  end.

(** [isinstance(v, int)]: [bool] is a subclass of [int] in Python. *)
Definition py_isinstance_int (v : pyval) : bool :=
  match v with PyBool _ | PyInt _ => true | _ => false end.

(** [isinstance(v, numbers.Integral)] *)
Definition py_isinstance_integral (v : pyval) : bool := py_isinstance_int v.

(** The integer value of an [int] (or [bool]) object. *)
Definition py_int_value (v : pyval) : option Z :=
  match v with
  | PyBool b => Some (if b then 1 else 0)
  | PyInt z => Some z
  | _ => None
  end.

(** Python 3 [basestring = (str, bytes)] (line 41 of src/pgtest/pgtest.py). *)
Definition py_isinstance_basestring (v : pyval) : bool :=
  match v with PyStr _ | PyBytes _ => true | _ => false end.

(** Truthiness of an optional path argument ([None] or a string). *)
Definition truthy_path (o : option string) : bool :=
  match o with None => false | Some s => negb (String.eqb s EmptyString) end.

(* ------------------------------------------------------------------ *)
(** ** Python exceptions *)

Definition newline : ascii := ascii_of_nat 10.


(** The exception classes the code raises or catches.  [PgTimeoutError]
    is the module's own [class TimeoutError(BaseException)]. *)
Inductive pyclass :=
| BaseException | Exception | KeyboardInterrupt
| AssertionError | TypeError | RuntimeError | OSError | FileNotFoundError
| FileExistsError | Pg8000Error | PgTimeoutError.

Definition pyclass_eqb (a b : pyclass) : bool :=
  match a, b with
  | BaseException, BaseException | Exception, Exception
  | KeyboardInterrupt, KeyboardInterrupt | AssertionError, AssertionError
  | TypeError, TypeError | RuntimeError, RuntimeError | OSError, OSError
  | FileNotFoundError, FileNotFoundError | FileExistsError, FileExistsError
  | Pg8000Error, Pg8000Error
  | PgTimeoutError, PgTimeoutError => true
  | _, _ => false
  end.

(** The direct base class ([IOError] is [OSError] in Python 3,
    [pg8000.Error] derives from [Exception]). *)
Definition py_base (c : pyclass) : option pyclass :=
  match c with
  | BaseException => None
  | Exception | KeyboardInterrupt | PgTimeoutError => Some BaseException
  | AssertionError | TypeError | RuntimeError | OSError | Pg8000Error =>
      Some Exception
  | FileNotFoundError | FileExistsError => Some OSError
  end.

(** [issubclass(c, d)]; the hierarchy above has depth at most 3. *)
Fixpoint issubclass_n (n : nat) (c d : pyclass) : bool :=
  pyclass_eqb c d ||
  match n, py_base c with
  | S n', Some b => issubclass_n n' b d
  | _, _ => false
  end.

Definition issubclass (c d : pyclass) : bool := issubclass_n 4 c d.

Record pyexn := mkExn { exn_cls : pyclass; exn_msg : string }.

(* ------------------------------------------------------------------ *)
(** ** Strings and paths *)

Definition dq : string := String (ascii_of_nat 34) EmptyString.

(** ['"' + s + '"'] *)
Definition quoted (s : string) : string := (dq ++ s ++ dq)%string.

(** [str(n)] for an integer. *)
Definition py_str_int (z : Z) : string := pretty z.

(** ['{}'.format(x)] of an optional string ([None] prints as [None]). *)
Definition py_str_opt (o : option string) : string :=
  match o with Some s => s | None => "None"%string end.

Definition last_char (s : string) : option ascii :=
  match String.length s with
  | O => None
  | S n => String.get n s
  end.

(** [os.path.join(a, b)] on POSIX for a relative [b]. *)
Definition path_join (a b : string) : string :=
  if String.eqb a EmptyString then b
  else if bool_decide (last_char a = Some "/"%char) then (a ++ b)%string
  else (a ++ "/" ++ b)%string.

(** [p] is [base] itself or lies below it. *)
Definition under (base p : string) : bool :=
  String.eqb p base || String.prefix (path_join base EmptyString) p.

(* ------------------------------------------------------------------ *)
(** ** The world and the environment *)

(** What the fixture does to the outside world, in order. *)
Inductive event :=
| EvShell (cmd : string)      (** [subprocess.Popen(cmd, shell=True, ...)] *)
| EvConnect (db : string)     (** [pg8000.connect(database=db, ...)] *)
| EvAutocommit                (** [conn.autocommit = True] *)
| EvSQL (query : string)      (** [cursor.execute(query)] *)
| EvSleep (ms : Z)            (** [time.sleep(ms / 1000)] *)
| EvPrint (s : string)        (** [print(s)] *)
| EvRmtree (path : string)    (** [shutil.rmtree(path, ...)] *)
| EvChmod (path : string)     (** [os.chmod(path, 0o700)] *)
| EvBind (port : Z)           (** a socket bound to an OS-chosen port *)
| EvClose (port : Z).         (** that socket closed *)

(** The mutable world: the set of existing paths, the clock
    ([datetime.utcnow()], in milliseconds), the event log, the ports the
    OS will hand out to successive [bind(('localhost', 0))] calls and the
    names successive [tempfile.mkdtemp()] calls create. *)
Record World := mkWorld {
  w_fs : gset string;
  w_clock : Z;
  w_log : list event;
  w_ports : list Z;
  w_tmp : list string
}.

(** The read-only environment.
    - [e_win]: [sys.platform.startswith('win')];
    - [e_which n]: the path [which(n)] finds, if any;
    - [e_run cmd]: [(stdout, stderr)] of the shell command [cmd], or
      [None] when [Popen] itself raises [OSError];
    - [e_connect t db]: the outcome of [pg8000.connect] to database [db]
      at time [t]: [None] when it connects, [Some c] when it raises an
      exception of class [c];
    - [e_count q]: the first column of the single row of [q];
    - [e_exec q]: the outcome of [cursor.execute(q)]: [None] when the
      server runs the statement, [Some c] when [pg8000] raises an
      exception of class [c] (a [CREATE DATABASE] while [template1] is
      still in use, a lost connection, ...). *)
Record Env := mkEnv {
  e_win : bool;
  e_which : string -> option string;
  e_run : string -> option (string * string);
  e_connect : Z -> string -> option pyclass;
  e_count : string -> Z;
  e_exec : string -> option pyclass
}.

(* ------------------------------------------------------------------ *)
(** ** A state and exception monad *)

(** [Stuck] marks a run that exhausted its fuel or needed an input the
    world did not provide; the theorems below exclude it. *)
Inductive outcome (A : Type) :=
| Ok (a : A)
| Raise (e : pyexn)
| Stuck.
Arguments Ok {A} a.
Arguments Raise {A} e.
Arguments Stuck {A}.

Definition M (A : Type) : Type := Env -> World -> outcome A * World.

Definition ret {A} (a : A) : M A := fun _ w => (Ok a, w).

Definition bind {A B} (m : M A) (k : A -> M B) : M B :=
  fun env w =>
    match m env w with
    | (Ok a, w1) => k a env w1
    | (Raise e, w1) => (Raise e, w1)
    | (Stuck, w1) => (Stuck, w1)
    end.

Notation "x <- m ;; k" := (bind m (fun x => k))
  (at level 65, m at next level, right associativity).
Notation "m ;;; k" := (bind m (fun _ => k))
  (at level 65, right associativity).

Definition raise_exn {A} (e : pyexn) : M A := fun _ w => (Raise e, w).
Definition raise {A} (c : pyclass) (msg : string) : M A :=
  raise_exn (mkExn c msg).
Definition stuck {A} : M A := fun _ w => (Stuck, w).

(** [try: m except: h(e)] (a bare [except] catches every exception). *)
Definition try_except {A} (m : M A) (h : pyexn -> M A) : M A :=
  fun env w =>
    match m env w with
    | (Raise e, w1) => h e env w1
    | r => r
    end.

(** [try: m except C: h(e)]: only exceptions whose class is a subclass of
    [C] are caught. *)
Definition try_except_cls {A} (c : pyclass) (m : M A) (h : pyexn -> M A) : M A :=
  fun env w =>
    match m env w with
    | (Raise e, w1) => if issubclass (exn_cls e) c then h e env w1 else (Raise e, w1)
    | r => r
    end.

Definition ask : M Env := fun env w => (Ok env, w).
Definition get : M World := fun _ w => (Ok w, w).
Definition put (w : World) : M unit := fun _ _ => (Ok tt, w).

Definition emit (ev : event) : M unit :=
  fun _ w => (Ok tt, mkWorld (w_fs w) (w_clock w) (w_log w ++ [ev]) (w_ports w) (w_tmp w)).

Definition set_fs (fs : gset string) : M unit :=
  fun _ w => (Ok tt, mkWorld fs (w_clock w) (w_log w) (w_ports w) (w_tmp w)).

(** [assert cond, msg] *)
Definition py_assert (cond : bool) (msg : string) : M unit :=
  if cond then ret tt else raise AssertionError msg.

(* ------------------------------------------------------------------ *)
(** ** Operating-system primitives *)

(** [os.path.exists(p)] *)
Definition path_exists (p : string) : M bool :=
  w <- get ;; ret (bool_decide (p ∈ w_fs w)).

(** [shutil.rmtree(p, ignore_errors=True)]: removes the tree below [p];
    a missing [p] is ignored. *)
Definition rmtree_ignore_errors (p : string) : M unit :=
  emit (EvRmtree p) ;;;
  w <- get ;;
  set_fs (filter (fun q => under p q = false) (w_fs w)).

(** [shutil.rmtree(p)]: raises [FileNotFoundError] for a missing [p]. *)
Definition rmtree (p : string) : M unit :=
  ex <- path_exists p ;;
  if ex then rmtree_ignore_errors p
  else raise FileNotFoundError "No such file or directory".

(** [os.makedirs(p)] (the parents of [p] the code creates already exist). *)
Definition makedirs (p : string) : M unit :=
  w <- get ;; set_fs ({[p]} ∪ w_fs w).

(** [shutil.copytree(src, dst)]: copies the tree below [src] to [dst];
    a path [q] below [src] is copied to [os.path.join(dst, rel)], [rel] its
    path relative to [src]. *)
Definition copytree (src dst : string) : M unit :=
  ex <- path_exists dst ;;
  if ex then raise FileExistsError "File exists"
  else w <- get ;;
       set_fs (w_fs w ∪ ({[dst]} ∪
                set_map (fun q => if String.eqb q src then dst
                                  else path_join dst (substring (String.length (path_join src EmptyString))
                                                                (String.length q) q))
                        (filter (fun q => under src q = true) (w_fs w)))).

(** [tempfile.mkdtemp()]: creates and returns a fresh directory. *)
Definition mkdtemp : M string :=
  w <- get ;;
  match w_tmp w with
  | [] => stuck
  | d :: ds => put (mkWorld ({[d]} ∪ w_fs w) (w_clock w) (w_log w) (w_ports w) ds) ;;; ret d
  end.

(** [datetime.datetime.utcnow()] *)
Definition utcnow : M Z := w <- get ;; ret (w_clock w).

(** [time.sleep(ms / 1000)] *)
Definition sleep (ms : Z) : M unit :=
  emit (EvSleep ms) ;;;
  w <- get ;;
  put (mkWorld (w_fs w) (w_clock w + ms) (w_log w) (w_ports w) (w_tmp w)).

(** [subprocess.Popen(cmd, shell=True, stdout=PIPE, stderr=PIPE)] followed
    by [communicate()]; returns [(stdout, stderr)]. *)
Definition run_shell (cmd : string) : M (string * string) :=
  emit (EvShell cmd) ;;;
  env <- ask ;;
  match e_run env cmd with
  | Some r => ret r
  | None => raise OSError "Popen failed"
  end.

(** [subprocess.Popen(...)] without waiting for the process. *)
Definition popen (cmd : string) : M unit := run_shell cmd ;;; ret tt.

(** [pg8000.connect] on the fixture dsn with [closing]: [true] when the connection
    was opened. *)
Definition pg_connect (db : string) : M unit :=
  emit (EvConnect db) ;;;
  env <- ask ;;
  t <- utcnow ;;
  match e_connect env t db with
  | None => ret tt
  | Some c => raise c "connect failed"
  end.

(** [cursor.execute(q)]: the statement is sent to the server, which may
    reject it. *)
Definition sql_execute (q : string) : M unit :=
  emit (EvSQL q) ;;;
  env <- ask ;;
  match e_exec env q with
  | None => ret tt
  | Some c => raise c "execute failed"
  end.

(** Python's [with] statement: [__exit__] runs on every way out of the
    block, with the block's exception when it raised; a false result of
    [__exit__] re-raises that exception. *)
Definition with_stmt {C A} (ctx : C) (enter : C -> M A)
    (exit : C -> option pyexn -> M bool) (body : A -> M unit) : M unit :=
  a <- enter ctx ;;
  fun env w =>
    match body a env w with
    | (Ok _, w1) => (exit ctx None ;;; ret tt) env w1
    | (Raise e, w1) =>
        (suppress <- exit ctx (Some e) ;;
         if suppress then ret tt else raise_exn e) env w1
    | (Stuck, w1) => (Stuck, w1)
    end.

(* ------------------------------------------------------------------ *)
(** ** The packaged module src/pgtest/pgtest.py *)

Module Pgtest.

(** [is_valid_port] (src/pgtest/pgtest.py, lines 124-135). *)
Definition is_valid_port (port : pyval) : bool :=
  if negb (py_isinstance_int port) then false
  else match py_int_value port with
       | Some p => (1024 <? p) && (p <? 65535)
       | None => false
       end.

(** [bind_unused_port] (lines 138-156): the socket stays bound while the
    recursive calls re-roll, and is closed before returning.  [fuel]
    bounds the recursion (Python's own recursion limit). *)
(** The [while not is_valid_port(port): port = bind_unused_port()] loop,
    with the recursive call [rec]; [g] bounds the iterations. *)
Fixpoint reroll_loop (rec : M Z) (g : nat) (port : Z) : M Z :=
  if is_valid_port (PyInt port) then ret port
  else match g with
       | O => stuck
       | S g' => q <- rec ;; reroll_loop rec g' q
       end.

Fixpoint bind_unused_port (fuel : nat) : M Z :=
  match fuel with
  | O => stuck
  | S f =>
      w <- get ;;
      match w_ports w with
      | [] => stuck
      | p :: ps =>
          put (mkWorld (w_fs w) (w_clock w) (w_log w ++ [EvBind p]) ps (w_tmp w)) ;;;
          port <- reroll_loop (bind_unused_port f) f p ;;
          emit (EvClose p) ;;;
          ret port
      end
  end.

(** Fuel large enough for every run Python's recursion limit allows. *)
Definition bind_fuel : nat := 1000.

(** *** The identifier pattern [^(?!pg_)[a-zA-Z_][a-zA-Z0-9_]*$] *)

Definition is_alpha (c : ascii) : bool :=
  let n := nat_of_ascii c in
  (Nat.leb 65 n && Nat.leb n 90) || (Nat.leb 97 n && Nat.leb n 122).

Definition is_digit (c : ascii) : bool :=
  let n := nat_of_ascii c in Nat.leb 48 n && Nat.leb n 57.

Definition is_underscore (c : ascii) : bool := Ascii.eqb c "_"%char.

(** [[a-zA-Z_]] *)
Definition re_class_first (c : ascii) : bool := is_alpha c || is_underscore c.

(** [[a-zA-Z0-9_]] *)
Definition re_class_rest (c : ascii) : bool :=
  is_alpha c || is_digit c || is_underscore c.

(** Python's [$] without [re.MULTILINE]: the end of the string, or the
    position just before a newline that ends the string. *)
Definition re_dollar (s : string) : bool :=
  match s with
  | EmptyString => true
  | String c EmptyString => Ascii.eqb c newline
  | _ => false
  end.

(** [[a-zA-Z0-9_]*$]: some number of class characters, then [$]. *)
Fixpoint re_star_dollar (s : string) : bool :=
  re_dollar s ||
  match s with
  | String c s' => re_class_rest c && re_star_dollar s'
  | EmptyString => false
  end.

(** [re.match('^(?!pg_)[a-zA-Z_][a-zA-Z0-9_]*$', s)] is not [None]. *)
Definition re_match_ident (s : string) : bool :=
  negb (String.prefix "pg_" s) &&
  match s with
  | String c s' => re_class_first c && re_star_dollar s'
  | EmptyString => false
  end.

(** [is_valid_db_object_name] (lines 159-173).  A [bytes] value passes the
    [basestring] test but [re.match] with a [str] pattern raises
    [TypeError] on it. *)
Definition is_valid_db_object_name (name : pyval) : M bool :=
  if negb (py_isinstance_basestring name) then
    raise TypeError "name must be a valid string"
  else match name with
       | PyStr s => ret (re_match_ident s)
       | _ => raise TypeError "cannot use a string pattern on a bytes-like object"
       end.

(** *** Executables and clusters *)

(** [which(in_file)]: the search itself is the environment's [e_which];
    when nothing is found it raises [FileNotFoundError] except on Windows,
    where it falls off the end and returns [None]. *)
Definition which (in_file : string) : M (option string) :=
  env <- ask ;;
  match e_which env in_file with
  | Some p => ret (Some p)
  | None =>
      if e_win env then ret None
      else raise FileNotFoundError ("'" ++ in_file ++ "' could not be found.")%string
  end.

Definition str_contains (needle hay : string) : bool :=
  match String.index 0 needle hay with Some _ => true | None => false end.

Definition str_nonempty (s : string) : bool := negb (String.eqb s EmptyString).

(** [is_valid_cluster_dir] (lines 197-216). *)
Definition is_valid_cluster_dir (path : string) : M bool :=
  exe <- which "pg_controldata" ;;
  r <- run_shell (quoted (py_str_opt exe) ++ " " ++ quoted path)%string ;;
  ret (negb (str_contains "No such file or directory" (snd r))).

(** *** The [PGTest] object *)

Record PGTest := mkPGTest {
  database : string;
  username : string;
  pg_ctl_exe : option string;
  copy_cluster : option string;
  port : Z;
  base_dir : string;
  log_file : string;
  cluster : string;
  listen_socket_dir : option string;
  no_cleanup : bool;
  max_connections : Z
}.

(** [_cleanup] (lines 467-473). *)
Definition _cleanup (self : PGTest) : M unit :=
  if negb (no_cleanup self) then rmtree_ignore_errors (base_dir self)
  else ret tt.

(** [try: m except: self._cleanup(); raise] *)
Definition cleanup_on_error {A} (self : PGTest) (m : M A) : M A :=
  try_except m (fun e => _cleanup self ;;; raise_exn e).

(** [_is_connection_available] (lines 525-532). *)
Definition _is_connection_available (self : PGTest) : M bool :=
  try_except_cls Pg8000Error (pg_connect (database self) ;;; ret true)
                 (fun _ => ret false).

(** The [while] loop of [_wait_for_server_ready]; every iteration sleeps
    100 ms, so [fuel] iterations cover [fuel * 100] ms. *)
Fixpoint wait_loop (self : PGTest) (endtime : Z) (fuel : nat) : M unit :=
  match fuel with
  | O => stuck
  | S f =>
      ok <- _is_connection_available self ;;
      if ok then ret tt
      else sleep 100 ;;;
           now <- utcnow ;;
           if endtime <? now then raise PgTimeoutError "Server failed to start"
           else wait_loop self endtime f
  end.

(** [_wait_for_server_ready] (lines 534-544), [wait] in seconds. *)
Definition _wait_for_server_ready (self : PGTest) (wait : Z) : M unit :=
  now <- utcnow ;;
  wait_loop self (now + wait * 1000) (Z.to_nat (wait * 10) + 2).

(** The command line of [_start_server]. *)
Definition start_cmd (win : bool) (self : PGTest) : string :=
  let socket_opt :=
    if win then EmptyString
    else ("-k " ++ py_str_opt (listen_socket_dir self))%string in
  (quoted (py_str_opt (pg_ctl_exe self)) ++ " start -D " ++ quoted (cluster self)
   ++ " -l " ++ quoted (log_file self) ++ " -o "
   ++ quoted ("-F -d 1 -p " ++ py_str_int (port self)
              ++ " -c logging_collector=off -N "
              ++ py_str_int (max_connections self) ++ " " ++ socket_opt))%string.

(** [_start_server] (lines 418-443). *)
Definition _start_server (self : PGTest) : M unit :=
  env <- ask ;;
  try_except
    (popen (start_cmd (e_win env) self) ;;; _wait_for_server_ready self 5)
    (fun e => emit (EvPrint "Server failed to start") ;;;
              _cleanup self ;;; raise_exn e).

(** The command line of [_stop_server]. *)
Definition stop_cmd (self : PGTest) : string :=
  (quoted (py_str_opt (pg_ctl_exe self)) ++ " stop -m fast -D " ++ cluster self)%string.

(** [_stop_server] (lines 445-459). *)
Definition _stop_server (self : PGTest) : M unit :=
  cleanup_on_error self
    (r <- run_shell (stop_cmd self) ;;
     if str_nonempty (snd r) then raise RuntimeError (snd r) else ret tt).

(** [close] (lines 461-465). *)
Definition close (self : PGTest) : M unit := _stop_server self ;;; _cleanup self.

(** [__enter__] and [__exit__] (lines 344-348); [__exit__] returns [None],
    so it never suppresses the exception. *)
Definition __enter__ (self : PGTest) : M PGTest := ret self.
Definition __exit__ (self : PGTest) (exc : option pyexn) : M bool :=
  close self ;;; ret false.

(** [_create_dirs] (lines 501-511). *)
Definition _create_dirs (self : PGTest) : M unit :=
  cleanup_on_error self
    (fold_left (fun acc p =>
                  acc ;;;
                  if truthy_path p then
                    ex <- path_exists (py_str_opt p) ;;
                    if ex then ret tt else makedirs (py_str_opt p)
                  else ret tt)
               [Some (base_dir self); Some (cluster self); listen_socket_dir self]
               (ret tt)).

(** The [initdb] command line of [_init_base_dir]. *)
Definition initdb_cmd (self : PGTest) : string :=
  (quoted (py_str_opt (pg_ctl_exe self)) ++ " initdb -D " ++ quoted (cluster self)
   ++ " -o " ++ quoted ("-U " ++ username self ++ " -A trust"))%string.

(** [_init_base_dir] (lines 475-499). *)
Definition _init_base_dir (self : PGTest) : M unit :=
  cleanup_on_error self
    ((if truthy_path (copy_cluster self) then
        rmtree (cluster self) ;;;
        copytree (py_str_opt (copy_cluster self)) (cluster self)
      else
        r <- run_shell (initdb_cmd self) ;;
        if str_nonempty (snd r) then raise OSError (snd r) else ret tt) ;;;
     v <- is_valid_cluster_dir (cluster self) ;;
     py_assert v ("Failed to create cluster: " ++ cluster self)%string).

(** [_set_dir_permissions] (lines 513-523). *)
Definition _set_dir_permissions (self : PGTest) : M unit :=
  cleanup_on_error self
    (fold_left (fun acc p =>
                  acc ;;;
                  if truthy_path p then
                    ex <- path_exists (py_str_opt p) ;;
                    if ex then emit (EvChmod (py_str_opt p)) else ret tt
                  else ret tt)
               [Some (base_dir self); Some (cluster self); listen_socket_dir self]
               (ret tt)).

(** The integer value of an [int] argument ([0] is never used: the code
    reads the value only after an [isinstance] check). *)
Definition int_of (v : pyval) : Z :=
  match py_int_value v with Some z => z | None => 0 end.

Definition str_of (v : pyval) : string :=
  match v with PyStr s | PyBytes s => s | _ => EmptyString end.

(** [PGTest.__init__] (lines 284-342). *)
Definition __init__ (username : pyval) (port : pyval) (log_file : option string)
    (no_cleanup : bool) (copy_cluster : option string) (base_dir : option string)
    (pg_ctl : option string) (max_connections : pyval) : M PGTest :=
  ok <- is_valid_db_object_name username ;;
  py_assert ok "Username must contain only letters and/or numbers" ;;;
  exe <- (if truthy_path pg_ctl then
            ex <- path_exists (py_str_opt pg_ctl) ;;
            py_assert ex ("Executable does not exist: " ++ py_str_opt pg_ctl)%string ;;;
            which (py_str_opt pg_ctl)
          else which "pg_ctl") ;;
  (if truthy_path copy_cluster then
     ex <- path_exists (py_str_opt copy_cluster) ;;
     py_assert ex ("Directory does not exist: " ++ py_str_opt copy_cluster)%string ;;;
     v <- is_valid_cluster_dir (py_str_opt copy_cluster) ;;
     py_assert v ("Directory is not a cluster directory: " ++ py_str_opt copy_cluster)%string
   else ret tt) ;;;
  p <- (if py_truthy port then
          py_assert (is_valid_port port) "Port is not between 1024 and 65535" ;;;
          ret (int_of port)
        else bind_unused_port bind_fuel) ;;
  base <- (if truthy_path base_dir then
             ex <- path_exists (py_str_opt base_dir) ;;
             py_assert ex ("Directory does not exist: " ++ py_str_opt base_dir)%string ;;;
             ret (py_str_opt base_dir)
           else mkdtemp) ;;
  let log := if truthy_path log_file then py_str_opt log_file
             else path_join base "pgtest_log.txt" in
  let clus := path_join base "data" in
  env <- ask ;;
  let sock := if e_win env then None else Some (path_join base "tmp") in
  py_assert (py_isinstance_integral max_connections)
            "Maximum number of connections must be an integer." ;;;
  let self := mkPGTest "postgres" (str_of username) exe copy_cluster p base log clus
                       sock no_cleanup (int_of max_connections) in
  _create_dirs self ;;;
  _init_base_dir self ;;;
  _set_dir_permissions self ;;;
  _start_server self ;;;
  ret self.

(** [PGTest.url] (lines 389-399). *)
Definition url (self : PGTest) : string :=
  ("postgresql://" ++ username self ++ "@localhost:" ++ py_str_int (port self) ++ "/"
   ++ database self)%string.

(** [PGTest.dsn] (lines 401-416). *)
Definition dsn (self : PGTest) : gmap string pyval :=
  <["port" := PyInt (port self)]> (<["host" := PyStr "localhost"]>
    (<["database" := PyStr (database self)]> (<["user" := PyStr (username self)]> ∅))).

(** [str.isspace] on a code point below 256. *)
Definition py_isspace (c : ascii) : bool :=
  let n := nat_of_ascii c in
  (Nat.leb 9 n && Nat.leb n 13) || (Nat.leb 28 n && Nat.leb n 32)
  || Nat.eqb n 133 || Nat.eqb n 160.

Fixpoint py_lstrip (s : string) : string :=
  match s with
  | EmptyString => EmptyString
  | String c s' => if py_isspace c then py_lstrip s' else s
  end.

Fixpoint py_rstrip (s : string) : string :=
  match s with
  | EmptyString => EmptyString
  | String c s' =>
      let r := py_rstrip s' in
      if String.eqb r EmptyString && py_isspace c then EmptyString else String c r
  end.

(** [s.strip()] *)
Definition py_strip (s : string) : string := py_rstrip (py_lstrip s).

(** [is_server_running] (lines 176-194). *)
Definition is_server_running (path : string) : M bool :=
  exe <- which "pg_ctl" ;;
  r <- run_shell (quoted (py_str_opt exe) ++ " status -D " ++ quoted path)%string ;;
  if String.eqb (py_strip (fst r)) "pg_ctl: no server running" then ret false
  else ret true.

End Pgtest.

(* ------------------------------------------------------------------ *)
(** ** The legacy module src/pgtest.py *)

Module Legacy.

(** The legacy module is Python 2 code, where an integer is an [int] (a
    machine integer between [-sys.maxint - 1] and [sys.maxint], that is
    [2^63 - 1] on 64-bit builds) or a [long] (unbounded); [bool] is a
    subclass of [int], and a [long] is not an [int] whatever its value
    ([5432L]).  [Py2Obj ty truthy] stands for any other object. *)
Inductive py2val :=
| Py2None
| Py2Bool (b : bool)
| Py2Int (z : Z)
| Py2Long (z : Z)
| Py2Str (s : string)
| Py2Unicode (s : string)
| Py2Obj (ty : string) (truthy : bool).

Definition maxint : Z := 2 ^ 63 - 1.

(** The object an integer literal without the [L] suffix (or an integer
    result) denotes: an [int] when it fits, a [long] otherwise. *)
Definition py2_integer (z : Z) : py2val :=
  if (- maxint - 1 <=? z) && (z <=? maxint) then Py2Int z else Py2Long z.

(** [isinstance(v, int)] in Python 2. *)
Definition py2_isinstance_int (v : py2val) : bool :=
  match v with Py2Bool _ | Py2Int _ => true | _ => false end.

(** The integer value of an [int] (or [bool]) object. *)
Definition py2_int_value (v : py2val) : option Z :=
  match v with
  | Py2Bool b => Some (if b then 1 else 0)
  | Py2Int z => Some z
  | _ => None
  end.

(** [is_valid_port] (src/pgtest.py, lines 77-80): a non-[int] raises. *)
Definition is_valid_port (port : py2val) : M bool :=
  if negb (py2_isinstance_int port) then raise TypeError "Port must be of type int"
  else ret (match py2_int_value port with
            | Some p => (1024 <? p) && (p <? 65535)
            | None => false
            end).

Record PGTest := mkPGTest {
  database : string;
  username : string;
  pg_ctl_exe : string;
  port : Z;
  base_dir : string;
  log_file : string;
  data_dir : string;
  listen_socket_dir : option string;
  no_cleanup : bool
}.

(** [cleanup] (lines 260-262). *)
Definition cleanup (self : PGTest) : M unit :=
  if negb (no_cleanup self) then rmtree_ignore_errors (base_dir self)
  else ret tt.

(** [_is_connection_available] (lines 309-316) connects to [template1]: only the database
    name of the connection matters here. *)
Definition _is_connection_available (self : PGTest) : M bool :=
  try_except_cls Pg8000Error (pg_connect "template1" ;;; ret true)
                 (fun _ => ret false).

Fixpoint wait_loop (self : PGTest) (endtime : Z) (fuel : nat) : M unit :=
  match fuel with
  | O => stuck
  | S f =>
      ok <- _is_connection_available self ;;
      if ok then ret tt
      else sleep 100 ;;;
           now <- utcnow ;;
           if endtime <? now then raise PgTimeoutError "Server failed to start"
           else wait_loop self endtime f
  end.

(** [_wait_for_server_ready] (lines 318-323). *)
Definition _wait_for_server_ready (self : PGTest) (timeout : Z) : M unit :=
  now <- utcnow ;;
  wait_loop self (now + timeout * 1000) (Z.to_nat (timeout * 10) + 2).

Definition select_query (self : PGTest) : string :=
  ("SELECT COUNT(*) FROM pg_database WHERE datname='" ++ database self ++ "'")%string.

Definition create_query (self : PGTest) : string :=
  ("CREATE DATABASE " ++ quoted (database self))%string.

(** [_create_database] (lines 325-333): one connection to [postgres] with
    autocommit, a count of the databases of that name, and a
    [CREATE DATABASE] only when there is none.  Either statement may
    raise; [closing] closes the cursor and the connection on the way out
    and lets the exception through. *)
Definition _create_database (self : PGTest) : M unit :=
  pg_connect "postgres" ;;;
  emit EvAutocommit ;;;
  sql_execute (select_query self) ;;;
  env <- ask ;;
  if e_count env (select_query self) <=? 0 then sql_execute (create_query self)
  else ret tt.

Definition start_cmd (win : bool) (self : PGTest) : string :=
  if win then
    (dq ++ pg_ctl_exe self ++ dq ++ " start -D " ++ data_dir self ++ " -l "
     ++ log_file self ++ " -o " ++ dq ++ "-F -p " ++ py_str_int (port self)
     ++ " -d 1 -c logging_collector=off" ++ dq)%string
  else
    (dq ++ pg_ctl_exe self ++ dq ++ " start -D " ++ data_dir self ++ " -l "
     ++ log_file self ++ " -o " ++ dq ++ "-F -p " ++ py_str_int (port self)
     ++ " -d 1 -c logging_collector=off -k "
     ++ py_str_opt (listen_socket_dir self) ++ dq)%string.

(** [start_server] (lines 224-245). *)
Definition start_server (self : PGTest) : M bool :=
  env <- ask ;;
  try_except
    (popen (start_cmd (e_win env) self) ;;; _wait_for_server_ready self 10)
    (fun e => cleanup self ;;; raise_exn e) ;;;
  try_except (_create_database self ;;; ret true) (fun e => raise_exn e).

(** [d.setdefault(k, v)] on a dictionary. *)
Definition setdefault (k : string) (v : pyval) (d : gmap string pyval) : gmap string pyval :=
  match d !! k with Some _ => d | None => <[k := v]> d end.

(** [dsn] (lines 264-270), its keyword arguments given as a dictionary. *)
Definition dsn (self : PGTest) (kwargs : gmap string pyval) : gmap string pyval :=
  let dsn_dict := kwargs in
  let dsn_dict := setdefault "port" (PyInt (port self)) dsn_dict in
  let dsn_dict := setdefault "host" (PyStr "localhost") dsn_dict in
  let dsn_dict := setdefault "user" (PyStr (username self)) dsn_dict in
  setdefault "database" (PyStr (database self)) dsn_dict.

(** [is_server_running] (lines 109-118): [None] when the function falls
    off its end. *)
Definition is_server_running (pg_ctl_exe path : string) : M (option bool) :=
  r <- run_shell (dq ++ pg_ctl_exe ++ dq ++ " status -D " ++ path)%string ;;
  let (out, err) := r in
  if Pgtest.str_nonempty out && negb (Pgtest.str_contains "no server running" out)
  then ret (Some true)
  else if Pgtest.str_nonempty err then ret (Some false)
  else ret None.

(** [is_valid_cluster_dir] (lines 121-130). *)
Definition is_valid_cluster_dir (pg_ctl_exe path : string) : M (option bool) :=
  r <- run_shell (dq ++ pg_ctl_exe ++ dq ++ " status -D " ++ path)%string ;;
  let (out, err) := r in
  if Pgtest.str_nonempty out && Pgtest.str_contains "server" out then ret (Some true)
  else if Pgtest.str_nonempty err && Pgtest.str_contains "not a database cluster directory" err
  then ret (Some false)
  else ret None.

Definition stop_cmd (self : PGTest) : string :=
  (dq ++ pg_ctl_exe self ++ dq ++ " stop -m fast -D " ++ data_dir self)%string.

(** [stop_server] (lines 247-254): no [try], so a failing [Popen] raises
    without [cleanup]. *)
Definition stop_server (self : PGTest) : M unit :=
  r <- run_shell (stop_cmd self) ;;
  if Pgtest.str_nonempty (snd r) then cleanup self ;;; raise RuntimeError (snd r)
  else ret tt.

(** [close] (lines 256-258). *)
Definition close (self : PGTest) : M unit := stop_server self ;;; cleanup self.

(** [__enter__] and [__exit__] (lines 184-189). *)
Definition __enter__ (self : PGTest) : M PGTest := start_server self ;;; ret self.
Definition __exit__ (self : PGTest) (exc : option pyexn) : M bool :=
  close self ;;; ret false.

End Legacy.

(* ------------------------------------------------------------------ *)
(** ** Looking up executables: [which] *)

(** Text is read as a sequence of code points below 256; the outputs of
    commands are the text they decode to. *)

Definition dq_char : ascii := ascii_of_nat 34.

(** [s.rfind(c)] *)
Fixpoint rfind_from (c : ascii) (s : string) (i : nat) (acc : option nat) : option nat :=
  match s with
  | EmptyString => acc
  | String x s' => rfind_from c s' (S i) (if Ascii.eqb x c then Some i else acc)
  end.

Definition rfind (c : ascii) (s : string) : option nat := rfind_from c s 0 None.

(** [s.split(c)] for a one-character separator. *)
Fixpoint py_split (c : ascii) (s : string) : list string :=
  match s with
  | EmptyString => [EmptyString]
  | String x s' =>
      let r := py_split c s' in
      if Ascii.eqb x c then EmptyString :: r
      else match r with
           | h :: t => String x h :: t
           | [] => [String x EmptyString]
           end
  end.

(** [sep.join(l)] *)
Fixpoint py_join (sep : string) (l : list string) : string :=
  match l with
  | [] => EmptyString
  | [x] => x
  | x :: l' => (x ++ sep ++ py_join sep l')%string
  end.

Fixpoint str_all (f : ascii -> bool) (s : string) : bool :=
  match s with
  | EmptyString => true
  | String c s' => f c && str_all f s'
  end.

(** [s.lstrip(c)], [s.rstrip(c)] and [s.strip(c)] for one character. *)
Fixpoint lstrip_char (c : ascii) (s : string) : string :=
  match s with
  | EmptyString => EmptyString
  | String x s' => if Ascii.eqb x c then lstrip_char c s' else s
  end.

Fixpoint rstrip_char (c : ascii) (s : string) : string :=
  match s with
  | EmptyString => EmptyString
  | String x s' =>
      let r := rstrip_char c s' in
      if String.eqb r EmptyString && Ascii.eqb x c then EmptyString else String x r
  end.

Definition strip_char (c : ascii) (s : string) : string := rstrip_char c (lstrip_char c s).

(** ['/' * n] *)
Fixpoint slashes (n : nat) : string :=
  match n with O => EmptyString | S n' => String "/"%char (slashes n') end.

(** The functions of Python's [posixpath] the search uses. *)
Module Posixpath.

(** [splitext] ([genericpath._splitext] with [sep = '/'], [extsep = '.']);
    its loop over the leading dots of the file name returns as soon as
    it meets another character. *)
Definition splitext (p : string) : string * string :=
  let sepIndex := match rfind "/"%char p with Some i => Z.of_nat i | None => -1 end in
  let dotIndex := match rfind "."%char p with Some i => Z.of_nat i | None => -1 end in
  if sepIndex <? dotIndex then
    let filenameIndex := Z.to_nat (sepIndex + 1) in
    let d := Z.to_nat dotIndex in
    if str_all (fun c => Ascii.eqb c "."%char) (substring filenameIndex (d - filenameIndex) p)
    then (p, EmptyString)
    else (substring 0 d p, substring d (String.length p - d) p)
  else (p, EmptyString).

(** [split] *)
Definition split (p : string) : string * string :=
  let i := match rfind "/"%char p with Some k => S k | None => O end in
  let head := substring 0 i p in
  let tail := substring i (String.length p - i) p in
  let head := if negb (String.eqb head EmptyString)
                 && negb (String.eqb head (slashes (String.length head)))
              then rstrip_char "/"%char head else head in
  (head, tail).

(** [join(a, b)] *)
Definition join (a b : string) : string :=
  if String.prefix "/" b then b else path_join a b.

(** One iteration of the loop of [normpath] over the components. *)
Definition normpath_step (initial_slashes : nat) (new_comps : list string) (comp : string)
    : list string :=
  if String.eqb comp EmptyString || String.eqb comp "." then new_comps
  else if negb (String.eqb comp "..")
          || (Nat.eqb initial_slashes 0 && match new_comps with [] => true | _ => false end)
          || (match new_comps with [] => false | _ => true end
              && String.eqb (List.last new_comps EmptyString) "..")
  then new_comps ++ [comp]
  else match new_comps with [] => new_comps | _ => List.removelast new_comps end.

(** [normpath] *)
Definition normpath (path : string) : string :=
  if String.eqb path EmptyString then "."%string
  else
    let initial_slashes :=
      if String.prefix "/" path then
        if String.prefix "//" path && negb (String.prefix "///" path) then 2%nat else 1%nat
      else O in
    let comps := fold_left (normpath_step initial_slashes) (py_split "/"%char path) [] in
    let path := py_join "/" comps in
    let path := if Nat.eqb initial_slashes 0 then path
                else (slashes initial_slashes ++ path)%string in
    if String.eqb path EmptyString then "."%string else path.

End Posixpath.

(** The outcome of [subprocess.check_output(['locate', '-r', regex])]. *)
Inductive locate_result :=
| LocOut (out : string)   (** its standard output *)
| LocFail                 (** a non-zero exit status: [CalledProcessError] *)
| LocMissing.             (** no [locate] program: [OSError] *)

(** What the search reads from the operating system (a POSIX one). *)
Record SysEnv := mkSysEnv {
  s_isfile : string -> bool;          (** [os.path.isfile(p)] *)
  s_access_x : string -> bool;        (** [os.access(p, os.X_OK)] *)
  s_path : option string;             (** [os.environ['PATH']], when set *)
  s_glob : string -> list string;     (** [glob.glob(pattern)], in its order *)
  s_locate : string -> locate_result  (** [locate -r regex] *)
}.

(** A returned path, a returned [None], or an exception (class name and
    message). *)
Inductive which_result :=
| WFound (p : string)
| WNone
| WRaise (cls msg : string).

(** [which] of src/pgtest/pgtest.py (lines 55-122) on a POSIX system, where
    [sys.platform] never starts with [win]. *)
Module PgtestOS.

(** [is_executable] (lines 55-57), as the condition it is used as. *)
Definition is_executable (env : SysEnv) (file_path : string) : bool :=
  negb (String.eqb file_path EmptyString) && s_isfile env file_path && s_access_x env file_path.

(** The loop over the directories of [PATH] (lines 89-95). *)
Fixpoint search_path (env : SysEnv) (dirs : list string) (in_file path_with_exe : string)
    : option string :=
  match dirs with
  | [] => None
  | path :: dirs' =>
      let file_path := Posixpath.join (strip_char dq_char path) in_file in
      let file_path_with_exe := Posixpath.join (strip_char dq_char path) path_with_exe in
      if is_executable env file_path_with_exe then Some (Posixpath.normpath file_path_with_exe)
      else if is_executable env file_path then Some (Posixpath.normpath file_path)
      else search_path env dirs' in_file path_with_exe
  end.

Definition is_digit_or_dot (c : ascii) : bool := Pgtest.is_digit c || Ascii.eqb c "."%char.

Fixpoint take_while (f : ascii -> bool) (s : string) : string :=
  match s with
  | EmptyString => EmptyString
  | String c s' => if f c then String c (take_while f s') else EmptyString
  end.

Fixpoint drop_while (f : ascii -> bool) (s : string) : string :=
  match s with
  | EmptyString => EmptyString
  | String c s' => if f c then drop_while f s' else s
  end.

(** A match of [postgresql/([\d\.]+)/bin] starting at the beginning of
    [s], as its group: the greedy group can only be followed by [/] when
    it is the longest run of digits and dots. *)
Definition version_match_at (s : string) : option string :=
  if String.prefix "postgresql/" s then
    let rest := substring 11 (String.length s - 11) s in
    let grp := take_while is_digit_or_dot rest in
    if negb (String.eqb grp EmptyString) && String.prefix "/bin" (drop_while is_digit_or_dot rest)
    then Some grp else None
  else None.

(** [re.search(r'postgresql/([\d\.]+)/bin', p).group(1)]; [None] is the
    [AttributeError] of [None.group]. *)
Fixpoint version_search (s : string) : option string :=
  match version_match_at s with
  | Some g => Some g
  | None => match s with EmptyString => None | String _ s' => version_search s' end
  end.

(** [float(v)] of a string of digits and dots, as [(m, k)] for
    [m / 10 ^ k]; [None] is the [ValueError] of a string with two dots or
    without a digit.  (Versions are compared exactly; IEEE doubles agree
    with that up to 15 significant digits.) *)
Fixpoint parse_decimal (s : string) (m : Z) (k : option nat) (digits : bool)
    : option (Z * nat) :=
  match s with
  | EmptyString => if digits then Some (m, match k with Some k => k | None => O end) else None
  | String c s' =>
      if Ascii.eqb c "."%char then
        match k with Some _ => None | None => parse_decimal s' m (Some O) digits end
      else parse_decimal s' (10 * m + Z.of_nat (nat_of_ascii c - 48)) (option_map S k) true
  end.

Definition py_float (v : string) : option (Z * nat) := parse_decimal v 0 None false.

Definition ver_eqb (a b : Z * nat) : bool :=
  Z.eqb (fst a * 10 ^ Z.of_nat (snd b)) (fst b * 10 ^ Z.of_nat (snd a)).
Definition ver_ltb (a b : Z * nat) : bool :=
  Z.ltb (fst a * 10 ^ Z.of_nat (snd b)) (fst b * 10 ^ Z.of_nat (snd a)).

(** Storing [v] under the key [k] of a dictionary kept in insertion order. *)
Fixpoint dict_set (k : Z * nat) (v : string) (d : list ((Z * nat) * string))
    : list ((Z * nat) * string) :=
  match d with
  | [] => [(k, v)]
  | (k', v') :: d' => if ver_eqb k k' then (k', v) :: d' else (k', v') :: dict_set k v d'
  end.

(** The dictionary comprehension of lines 100-101; [None] when evaluating
    a key raised. *)
Fixpoint pg_ctls_dict (ps : list string) (acc : list ((Z * nat) * string))
    : option (list ((Z * nat) * string)) :=
  match ps with
  | [] => Some acc
  | p :: ps' =>
      match version_search p with
      | None => None
      | Some g =>
          match py_float g with
          | None => None
          | Some q => pg_ctls_dict ps' (dict_set q p acc)
          end
      end
  end.

(** [max] over the keys, with its value; [None] is the [ValueError] of an
    empty dictionary. *)
Definition dict_max (d : list ((Z * nat) * string)) : option ((Z * nat) * string) :=
  match d with
  | [] => None
  | e :: d' => Some (fold_left (fun best e => if ver_ltb (fst best) (fst e) then e else best) d' e)
  end.

(** The search of [/usr/lib/postgresql/*/bin] (lines 99-109): only the
    newest version is tried. *)
Definition search_pg_dirs (env : SysEnv) (in_file : string) : option string :=
  match pg_ctls_dict (s_glob env ("/usr/lib/postgresql/*/bin/" ++ in_file)%string) [] with
  | None => None
  | Some d =>
      match dict_max d with
      | None => None
      | Some (_, file_path) =>
          if is_executable env file_path then Some (Posixpath.normpath file_path) else None
      end
  end.

(** The loop over the lines printed by [locate] (lines 116-118). *)
Fixpoint first_executable (env : SysEnv) (l : list string) : option string :=
  match l with
  | [] => None
  | file_path :: l' =>
      if is_executable env file_path then Some (Posixpath.normpath file_path)
      else first_executable env l'
  end.

Definition not_found (in_file : string) : which_result :=
  WRaise "FileNotFoundError" ("'" ++ in_file ++ "' could not be found.")%string.

(** [which] (lines 59-122).  A [bytes] argument passes the [isinstance]
    test, but [path_no_ext + '.exe'] then adds [str] to [bytes]. *)
Definition which (env : SysEnv) (in_file : pyval) : which_result :=
  match in_file with
  | PyStr s =>
      let path_no_ext := fst (Posixpath.splitext s) in
      let path_with_exe := (path_no_ext ++ ".exe")%string in
      let found : option which_result :=
        if negb (String.eqb (fst (Posixpath.split path_no_ext)) EmptyString) then
          if is_executable env s then Some (WFound (Posixpath.normpath s))
          else if is_executable env path_with_exe
          then Some (WFound (Posixpath.normpath path_with_exe))
          else None
        else
          match s_path env with
          | None => Some (WRaise "KeyError" "'PATH'")
          | Some pv => option_map WFound (search_path env (py_split ":"%char pv) s path_with_exe)
          end in
      match found with
      | Some r => r
      | None =>
          match search_pg_dirs env s with
          | Some p => WFound p
          | None =>
              match s_locate env ("/" ++ s ++ "$")%string with
              | LocOut out =>
                  match first_executable env (py_split newline out) with
                  | Some p => WFound p
                  | None => not_found s
                  end
              | LocFail => not_found s
              | LocMissing =>
                  WRaise "FileNotFoundError" "[Errno 2] No such file or directory: 'locate'"
              end
          end
      end
  | PyBytes _ => WRaise "TypeError" "can't concat str to bytes"
  | _ => WRaise "TypeError" "file must be a valid string"
  end.

End PgtestOS.

(** [which] and [get_exe_path] of the legacy module src/pgtest.py (Python 2)
    on a POSIX system. *)
Module LegacyOS.

(** [is_exe] (lines 19-29) *)
Definition is_exe (env : SysEnv) (file_path : string) : bool := s_access_x env file_path.

(** The loop over the directories of [PATH] (lines 55-63). *)
Fixpoint search_path (env : SysEnv) (dirs : list string) (in_file path_with_exe : string)
    : option string :=
  match dirs with
  | [] => None
  | path :: dirs' =>
      let file_path := Posixpath.join (strip_char dq_char path) in_file in
      let file_path_with_exe := Posixpath.join (strip_char dq_char path) path_with_exe in
      if s_isfile env file_path_with_exe then
        if is_exe env file_path_with_exe then Some (Posixpath.normpath file_path_with_exe)
        else search_path env dirs' in_file path_with_exe
      else if s_isfile env file_path then
        if is_exe env file_path then Some (Posixpath.normpath file_path)
        else search_path env dirs' in_file path_with_exe
      else search_path env dirs' in_file path_with_exe
  end.

(** The loop over the lines printed by [locate] (lines 70-72). *)
Fixpoint first_exe (env : SysEnv) (l : list string) : option string :=
  match l with
  | [] => None
  | file_path :: l' =>
      if is_exe env file_path then Some (Posixpath.normpath file_path) else first_exe env l'
  end.

(** [which] (lines 32-74): with a directory part and neither file present,
    [file_path] is read before any assignment. *)
Definition which (env : SysEnv) (in_file : string) : which_result :=
  let path_no_ext := fst (Posixpath.splitext in_file) in
  let path_with_exe := (path_no_ext ++ ".exe")%string in
  let found : option which_result :=
    if negb (String.eqb (fst (Posixpath.split path_no_ext)) EmptyString) then
      let file_path := if s_isfile env in_file then Some in_file
                       else if s_isfile env path_with_exe then Some path_with_exe
                       else None in
      match file_path with
      | None => Some (WRaise "UnboundLocalError"
                        "local variable 'file_path' referenced before assignment")
      | Some fp => if is_exe env fp then Some (WFound (Posixpath.normpath fp)) else None
      end
    else
      match s_path env with
      | None => Some (WRaise "KeyError" "'PATH'")
      | Some pv => option_map WFound (search_path env (py_split ":"%char pv) in_file path_with_exe)
      end in
  match found with
  | Some r => r
  | None =>
      match s_locate env ("/" ++ in_file ++ "$")%string with
      | LocOut results =>
          match first_exe env (py_split newline results) with
          | Some p => WFound p
          | None => WNone
          end
      | LocFail => WNone
      | LocMissing => WRaise "OSError" "[Errno 2] No such file or directory"
      end
  end.

(** [get_exe_path] (lines 94-99). *)
Definition get_exe_path (env : SysEnv) (filename : string) : which_result :=
  match which env filename with
  | WFound p =>
      if String.eqb p EmptyString then WRaise "IOError" ("File not found: " ++ filename)%string
      else WFound p
  | WNone => WRaise "IOError" ("File not found: " ++ filename)%string
  | WRaise c m => WRaise c m
  end.

End LegacyOS.

(* ------------------------------------------------------------------ *)
(** ** The effect of a run on the file system *)

(** The file system after [_cleanup]: unchanged with [no_cleanup], else
    without the tree below the base directory. *)
Definition cleaned_fs (no_cleanup : bool) (base : string) (fs : gset string) : gset string :=
  if no_cleanup then fs else filter (fun q => under base q = false) fs.

Definition is_sql (ev : event) : bool :=
  match ev with EvSQL _ => true | _ => false end.

(** The specification's identifier grammar read as its words: non-empty,
    a letter or underscore first, only letters, digits and underscores,
    and no [pg_] prefix. *)
Fixpoint all_rest_class (s : string) : bool :=
  match s with
  | EmptyString => true
  | String c s' => Pgtest.re_class_rest c && all_rest_class s'
  end.

Definition ident_spec (s : string) : bool :=
  negb (String.prefix "pg_" s) &&
  match s with
  | String c s' => Pgtest.re_class_first c && all_rest_class s'
  | EmptyString => false
  end.

(* ------------------------------------------------------------------ *)
(** ** Concrete fixtures *)

Definition pg_ctl_path : string := "/usr/lib/postgresql/9.4/bin/pg_ctl".
Definition pg_controldata_path : string := "/usr/lib/postgresql/9.4/bin/pg_controldata".

Definition which_std (n : string) : option string :=
  if String.eqb n "pg_ctl" then Some pg_ctl_path
  else if String.eqb n "pg_controldata" then Some pg_controldata_path
  else None.

(** Every command succeeds silently; the server accepts connections. *)
Definition env_up : Env :=
  mkEnv false which_std (fun _ => Some (EmptyString, EmptyString))
        (fun _ _ => None) (fun _ => 0) (fun _ => None).

(** The same, but the server never accepts a connection. *)
Definition env_down : Env :=
  mkEnv false which_std (fun _ => Some (EmptyString, EmptyString))
        (fun _ _ => Some Pg8000Error) (fun _ => 0) (fun _ => None).

(** [pg_ctl stop] reports an error. *)
Definition env_stop_fails : Env :=
  mkEnv false which_std
        (fun cmd => if String.prefix (quoted pg_ctl_path ++ " stop")%string cmd
                    then Some (EmptyString, "pg_ctl: PID file does not exist"%string)
                    else Some (EmptyString, EmptyString))
        (fun _ _ => None) (fun _ => 0) (fun _ => None).

Definition tmp_base : string := "/tmp/tmpiDtBjs".

(** Nothing exists yet; the OS hands out port 47251 and [mkdtemp] creates
    [tmp_base]. *)
Definition world0 : World := mkWorld ∅ 0 [] [47251] [tmp_base].

(** The fixture of the docstring, with or without [no_cleanup]. *)
Definition fixture (nc : bool) : Pgtest.PGTest :=
  Pgtest.mkPGTest "postgres" "postgres" (Some pg_ctl_path) None 47251 tmp_base
    (path_join tmp_base "pgtest_log.txt") (path_join tmp_base "data")
    (Some (path_join tmp_base "tmp")) nc 11.

(** The world once its directories exist. *)
Definition world_dirs : World :=
  mkWorld {[tmp_base; path_join tmp_base "data"; path_join tmp_base "tmp"]}
          1000 [] [] [].

Definition timeout_exn : pyexn := mkExn PgTimeoutError "Server failed to start".

(** A fixture of the legacy module for a database [test]. *)
Definition legacy_fixture : Legacy.PGTest :=
  Legacy.mkPGTest "test" "postgres" pg_ctl_path 47251 tmp_base
    (path_join tmp_base "pgtest_log.txt") (path_join tmp_base "data")
    (Some (path_join tmp_base "tmp")) false.

(** A user name with a trailing newline. *)
Definition name_nl : string := ("postgres" ++ String newline EmptyString)%string.

(** The OS first hands out a privileged port, then 47251. *)
Definition world_ports : World := mkWorld ∅ 0 [] [80; 47251] [tmp_base].

(** The message [pg_ctl status] prints for a stopped cluster. *)
Definition pg_ctl_not_running : string := "pg_ctl: no server running".

(** Everything succeeds except a connection to the [postgres] database. *)
Definition env_no_db : Env :=
  mkEnv false which_std (fun _ => Some (EmptyString, EmptyString))
        (fun _ db => if String.eqb db "postgres" then Some Pg8000Error else None)
        (fun _ => 0) (fun _ => None).

(** Every shell command prints [out] and [err]. *)
Definition env_status (out err : string) : Env :=
  mkEnv false which_std (fun _ => Some (out, err)) (fun _ _ => None) (fun _ => 0) (fun _ => None).

(** A POSIX system with [pg_ctl] in [/usr/bin], on the [PATH]. *)
Definition sys_usr_bin : SysEnv :=
  mkSysEnv (fun p => String.eqb p "/usr/bin/pg_ctl") (fun p => String.eqb p "/usr/bin/pg_ctl")
           (Some "/usr/local/bin:/usr/bin"%string) (fun _ => []) (fun _ => LocFail).

(** A POSIX system with no file at all and no [PATH] variable. *)
Definition sys_no_path : SysEnv :=
  mkSysEnv (fun _ => false) (fun _ => false) None (fun _ => []) (fun _ => LocFail).

(** [s] contains a ['/']. *)
Definition has_slash (s : string) : Prop := exists j, String.get j s = Some "/"%char.

(* ================================================================== *)
(** * Proofs *)

(** ** Invariants of monadic code *)

Section Preserves.

Context (R : World -> World -> Prop) `{!PreOrder R}.

(** [m] relates its initial and final worlds by [R], whatever happens. *)
Definition preserves {A} (m : M A) : Prop := forall env w, R w (snd (m env w)).

Lemma preserves_ret {A} (a : A) : preserves (ret a).
Proof. intros env w. simpl. reflexivity. Qed.

Lemma preserves_raise_exn {A} e : preserves (A:=A) (raise_exn e).
Proof. intros env w. simpl. reflexivity. Qed.

Lemma preserves_raise {A} c msg : preserves (A:=A) (raise c msg).
Proof. apply preserves_raise_exn. Qed.

Lemma preserves_stuck {A} : preserves (A:=A) stuck.
Proof. intros env w. simpl. reflexivity. Qed.

Lemma preserves_ask : preserves ask.
Proof. intros env w. simpl. reflexivity. Qed.

Lemma preserves_get : preserves get.
Proof. intros env w. simpl. reflexivity. Qed.

Lemma preserves_bind {A B} (m : M A) (k : A -> M B) :
  preserves m -> (forall a, preserves (k a)) -> preserves (bind m k).
Proof.
  intros Hm Hk env w. unfold bind. specialize (Hm env w).
  destruct (m env w) as [[a|e|] w1]; simpl in *; try assumption.
  etransitivity; [exact Hm | apply Hk].
Qed.

Lemma preserves_try_except {A} (m : M A) (h : pyexn -> M A) :
  preserves m -> (forall e, preserves (h e)) -> preserves (try_except m h).
Proof.
  intros Hm Hh env w. unfold try_except. specialize (Hm env w).
  destruct (m env w) as [[a|e|] w1]; simpl in *; try assumption.
  etransitivity; [exact Hm | apply Hh].
Qed.

Lemma preserves_try_except_cls {A} c (m : M A) (h : pyexn -> M A) :
  preserves m -> (forall e, preserves (h e)) -> preserves (try_except_cls c m h).
Proof.
  intros Hm Hh env w. unfold try_except_cls. specialize (Hm env w).
  destruct (m env w) as [[a|e|] w1]; simpl in *; try assumption.
  destruct (issubclass (exn_cls e) c); [|assumption].
  etransitivity; [exact Hm | apply Hh].
Qed.

Lemma preserves_if {A} (b : bool) (m1 m2 : M A) :
  preserves m1 -> preserves m2 -> preserves (if b then m1 else m2).
Proof. destruct b; auto. Qed.

Lemma preserves_fold {A} (f : M unit -> A -> M unit) (l : list A) (m : M unit) :
  preserves m -> (forall acc a, preserves acc -> preserves (f acc a)) ->
  preserves (fold_left f l m).
Proof.
  revert m. induction l as [|a l IH]; simpl; intros m Hm Hf; auto.
Qed.

End Preserves.

Create HintDb preserves.
#[export] Hint Resolve preserves_ret preserves_raise_exn preserves_raise
  preserves_stuck preserves_ask preserves_get : preserves.

(** Splits a [preserves] goal along the structure of the code. *)
Ltac preserves_step :=
  match goal with
  | |- preserves _ (bind _ _) => apply preserves_bind; [exact _| |intros ?]
  | |- preserves _ (try_except _ _) => apply preserves_try_except; [exact _| |intros ?]
  | |- preserves _ (try_except_cls _ _ _) =>
      apply preserves_try_except_cls; [exact _| |intros ?]
  | |- preserves _ (if ?b then _ else _) => apply preserves_if
  | |- preserves _ (match ?x with _ => _ end) => destruct x
  | |- preserves _ (let _ := _ in _) => cbv zeta
  | |- preserves _ (fold_left _ _ _) => apply preserves_fold; [|intros ? ? ?]
  end.

Ltac preserves_auto :=
  repeat (preserves_step || eauto with preserves typeclass_instances).

(** *** The file system is left as it is *)

Definition same_fs (w w' : World) : Prop := w_fs w' = w_fs w.

#[export] Instance same_fs_preorder : PreOrder same_fs.
Proof. split; unfold same_fs; intro; intros; congruence. Qed.

Lemma same_fs_emit ev : preserves same_fs (emit ev).
Proof. intros env w. reflexivity. Qed.

Lemma same_fs_sleep ms : preserves same_fs (sleep ms).
Proof. intros env w. reflexivity. Qed.

Lemma same_fs_utcnow : preserves same_fs utcnow.
Proof. intros env w. reflexivity. Qed.

#[export] Hint Resolve same_fs_emit same_fs_sleep same_fs_utcnow : preserves.

Lemma same_fs_run_shell cmd : preserves same_fs (run_shell cmd).
Proof. unfold run_shell. preserves_auto. Qed.

Lemma same_fs_pg_connect db : preserves same_fs (pg_connect db).
Proof. unfold pg_connect. preserves_auto. Qed.

#[export] Hint Resolve same_fs_run_shell same_fs_pg_connect : preserves.

Lemma same_fs_wait_loop self endtime fuel :
  preserves same_fs (Pgtest.wait_loop self endtime fuel).
Proof.
  induction fuel as [|f IH]; simpl; [preserves_auto|].
  unfold Pgtest._is_connection_available. preserves_auto.
Qed.

Lemma same_fs_wait self wait :
  preserves same_fs (Pgtest._wait_for_server_ready self wait).
Proof.
  unfold Pgtest._wait_for_server_ready. preserves_auto. apply same_fs_wait_loop.
Qed.

(** ** [_cleanup] *)

Lemma cleanup_run self env w :
  fst (Pgtest._cleanup self env w) = Ok tt /\
  w_fs (snd (Pgtest._cleanup self env w)) =
    cleaned_fs (Pgtest.no_cleanup self) (Pgtest.base_dir self) (w_fs w).
Proof.
  unfold Pgtest._cleanup, cleaned_fs.
  destruct (Pgtest.no_cleanup self); split; reflexivity.
Qed.

(** ** Readiness wait of the packaged module *)

(** The world after one failed probe of [_wait_for_server_ready]. *)
Definition probe_failed (db : string) (w : World) : World :=
  mkWorld (w_fs w) (w_clock w + 100) ((w_log w ++ [EvConnect db]) ++ [EvSleep 100])
          (w_ports w) (w_tmp w).

Lemma wait_loop_fail_step env self E f w c :
  e_connect env (w_clock w) (Pgtest.database self) = Some c ->
  issubclass c Pg8000Error = true ->
  Pgtest.wait_loop self E (S f) env w =
  (if E <? w_clock w + 100 then raise PgTimeoutError "Server failed to start"
   else Pgtest.wait_loop self E f) env (probe_failed (Pgtest.database self) w).
Proof.
  intros Hc Hsub. simpl.
  unfold Pgtest._is_connection_available, try_except_cls, pg_connect, bind, emit,
    ask, utcnow, get, ret, sleep, put.
  simpl. rewrite Hc. simpl. rewrite Hsub. reflexivity.
Qed.

(** When the [n + 1] probes at 100 ms intervals all fail and the last one
    is the last before the deadline, the loop raises the timeout error
    100 ms after that last probe. *)
Lemma wait_loop_timeout env self E : forall n fuel w,
  (n < fuel)%nat ->
  E < w_clock w + 100 * (Z.of_nat n + 1) ->
  w_clock w + 100 * Z.of_nat n <= E ->
  (forall j, (j <= n)%nat -> exists c,
      e_connect env (w_clock w + 100 * Z.of_nat j) (Pgtest.database self) = Some c /\
      issubclass c Pg8000Error = true) ->
  exists w', Pgtest.wait_loop self E fuel env w =
               (Raise (mkExn PgTimeoutError "Server failed to start"), w') /\
             w_fs w' = w_fs w /\ w_clock w' = w_clock w + 100 * (Z.of_nat n + 1).
Proof.
  induction n as [|n IH]; intros fuel w Hf Hlt Hle Hp; destruct fuel as [|f]; try lia;
    destruct (Hp O) as [c [Hc Hsub]]; try lia;
    replace (w_clock w + 100 * Z.of_nat 0) with (w_clock w) in Hc by lia;
    rewrite (wait_loop_fail_step _ _ _ _ _ _ Hc Hsub).
  - rewrite (proj2 (Z.ltb_lt _ _)) by lia.
    eexists; split; [reflexivity|]. simpl. split; [reflexivity|lia].
  - rewrite (proj2 (Z.ltb_ge _ _)) by lia.
    destruct (IH f (probe_failed (Pgtest.database self) w)) as [w' [Hrun [Hfs Hclk]]];
      simpl; try lia.
    + intros j Hj. destruct (Hp (S j)) as [c' [Hc' Hs']]; [lia|].
      exists c'. split; [|exact Hs']. rewrite <- Hc'. f_equal. lia.
    + exists w'. split; [exact Hrun|]. simpl in Hfs, Hclk. split; [exact Hfs|lia].
Qed.

(** ** [_start_server] of the packaged module *)

Definition start_handler (self : Pgtest.PGTest) (e : pyexn) : M unit :=
  emit (EvPrint "Server failed to start") ;;; Pgtest._cleanup self ;;; raise_exn e.

Lemma start_server_unfold self env w :
  Pgtest._start_server self env w =
  try_except (popen (Pgtest.start_cmd (e_win env) self) ;;;
              Pgtest._wait_for_server_ready self 5)
             (start_handler self) env w.
Proof. reflexivity. Qed.

Lemma start_handler_run self e env w :
  fst (start_handler self e env w) = Raise e /\
  w_fs (snd (start_handler self e env w)) =
    cleaned_fs (Pgtest.no_cleanup self) (Pgtest.base_dir self) (w_fs w).
Proof.
  unfold start_handler, Pgtest._cleanup, cleaned_fs.
  destruct (Pgtest.no_cleanup self); split; reflexivity.
Qed.

(** Whatever exception leaves [_start_server], it left after the bare
    [except] ran [_cleanup] on the file system as it was at the start. *)
Lemma start_server_raise_cleans self env w e w' :
  Pgtest._start_server self env w = (Raise e, w') ->
  w_fs w' = cleaned_fs (Pgtest.no_cleanup self) (Pgtest.base_dir self) (w_fs w).
Proof.
  rewrite start_server_unfold. unfold try_except.
  assert (Hp : preserves same_fs (popen (Pgtest.start_cmd (e_win env) self) ;;;
                                  Pgtest._wait_for_server_ready self 5)).
  { unfold popen. preserves_auto. apply same_fs_wait. }
  specialize (Hp env w). unfold same_fs in Hp.
  destruct ((popen (Pgtest.start_cmd (e_win env) self) ;;;
             Pgtest._wait_for_server_ready self 5) env w) as [[a|e1|] w1];
    simpl in Hp; try discriminate.
  intros Hrun. destruct (start_handler_run self e1 env w1) as [_ Hfs].
  rewrite Hrun in Hfs. simpl in Hfs. rewrite Hfs, Hp. reflexivity.
Qed.

(** The readiness wait of [_start_server] times out when the 51 probes
    at [t], [t + 100 ms], ..., [t + 5000 ms] all fail. *)
Lemma start_server_timeout self env w out :
  e_run env (Pgtest.start_cmd (e_win env) self) = Some out ->
  (forall j, (j <= 50)%nat -> exists c,
      e_connect env (w_clock w + 100 * Z.of_nat j) (Pgtest.database self) = Some c /\
      issubclass c Pg8000Error = true) ->
  exists w', Pgtest._start_server self env w =
               (Raise (mkExn PgTimeoutError "Server failed to start"), w') /\
             w_fs w' = cleaned_fs (Pgtest.no_cleanup self) (Pgtest.base_dir self) (w_fs w) /\
             w_clock w' = w_clock w + 5100.
Proof.
  intros Hrun Hp. rewrite start_server_unfold.
  set (w1 := mkWorld (w_fs w) (w_clock w)
               (w_log w ++ [EvShell (Pgtest.start_cmd (e_win env) self)])
               (w_ports w) (w_tmp w)).
  assert (Hpre : (popen (Pgtest.start_cmd (e_win env) self) ;;;
                  Pgtest._wait_for_server_ready self 5) env w =
                 Pgtest.wait_loop self (w_clock w + 5 * 1000) (Z.to_nat (5 * 10) + 2) env w1).
  { unfold popen, run_shell, bind, emit, ask. simpl. rewrite Hrun. reflexivity. }
  destruct (wait_loop_timeout env self (w_clock w + 5 * 1000) 50
              (Z.to_nat (5 * 10) + 2) w1) as [w2 [Hw2 [Hfs2 Hclk2]]];
    simpl; try lia.
  { intros j Hj. apply Hp. exact Hj. }
  unfold try_except. rewrite Hpre, Hw2.
  destruct (start_handler_run self (mkExn PgTimeoutError "Server failed to start") env w2)
    as [Hr Hfs].
  destruct (start_handler self _ env w2) as [r w3] eqn:E. simpl in Hr, Hfs. subst r.
  exists w3. split; [reflexivity|]. split.
  - rewrite Hfs, Hfs2. reflexivity.
  - unfold start_handler, Pgtest._cleanup in E.
    apply (f_equal (fun p => w_clock (snd p))) in E.
    unfold w1 in Hclk2. simpl in Hclk2.
    destruct (Pgtest.no_cleanup self); simpl in E; lia.
Qed.

(** ** C1: the startup timeout *)

(** C1 (as amended). When every probe of the readiness wait (one every
    100 ms, from the start of the wait up to its 5-second deadline) fails,
    [_start_server] raises the module's own [TimeoutError], a class apart
    from the [AssertionError] and [OSError] of failed initialisation,
    after its bare [except] ran [_cleanup]: the base directory tree is
    gone unless [no_cleanup] was requested.  Any exception leaving
    [_start_server] has gone through the same [_cleanup]. *)
Theorem start_server_timeout_cleanup :
  (forall self env w out,
      e_run env (Pgtest.start_cmd (e_win env) self) = Some out ->
      (forall j, (j <= 50)%nat -> exists c,
          e_connect env (w_clock w + 100 * Z.of_nat j) (Pgtest.database self) = Some c /\
          issubclass c Pg8000Error = true) ->
      exists w', Pgtest._start_server self env w = (Raise timeout_exn, w') /\
                 w_fs w' = cleaned_fs (Pgtest.no_cleanup self) (Pgtest.base_dir self) (w_fs w) /\
                 w_clock w' = w_clock w + 5100) /\
  (forall self env w e w',
      Pgtest._start_server self env w = (Raise e, w') ->
      w_fs w' = cleaned_fs (Pgtest.no_cleanup self) (Pgtest.base_dir self) (w_fs w)) /\
  issubclass PgTimeoutError AssertionError = false /\
  issubclass PgTimeoutError OSError = false.
Proof.
  split; [|split; [|split; reflexivity]].
  - intros self env w out Hrun Hp. exact (start_server_timeout self env w out Hrun Hp).
  - intros self env w e w' H. exact (start_server_raise_cleans self env w e w' H).
Qed.

Lemma start_server_timeout_cleanup_witness :
  e_run env_down (Pgtest.start_cmd (e_win env_down) (fixture false)) =
    Some (EmptyString, EmptyString) /\
  exists w', Pgtest._start_server (fixture false) env_down world_dirs = (Raise timeout_exn, w') /\
             w_fs w' = cleaned_fs false tmp_base (w_fs world_dirs) /\
             w_clock w' = w_clock world_dirs + 5100.
Proof.
  split; [reflexivity|].
  apply (proj1 start_server_timeout_cleanup (fixture false) env_down world_dirs
           (EmptyString, EmptyString)); [reflexivity|].
  intros j _. exists Pg8000Error. split; reflexivity.
Defined.

(** With [no_cleanup] the timeout leaves the working directories in
    place. *)
Lemma start_server_timeout_keeps_dirs :
  fst (Pgtest._start_server (fixture true) env_down world_dirs) = Raise timeout_exn /\
  tmp_base ∈ w_fs (snd (Pgtest._start_server (fixture true) env_down world_dirs)).
Proof.
  split; [vm_compute; reflexivity|].
  refine (bool_decide_eq_true_1 _ _). vm_compute. reflexivity.
Qed.

(** ** C10: the timeout error is not an [Exception] *)

(** C10. The module's [TimeoutError] derives directly from
    [BaseException], not from [Exception]: a caller's
    [except Exception] lets it through, while the bare [except] of
    [_start_server] caught it and ran [_cleanup] before re-raising. *)
Theorem timeout_error_base_exception :
  py_base PgTimeoutError = Some BaseException /\
  issubclass PgTimeoutError Exception = false /\
  (forall self env w w' (h : pyexn -> M unit),
      Pgtest._start_server self env w = (Raise timeout_exn, w') ->
      try_except_cls Exception (Pgtest._start_server self) h env w = (Raise timeout_exn, w') /\
      w_fs w' = cleaned_fs (Pgtest.no_cleanup self) (Pgtest.base_dir self) (w_fs w)).
Proof.
  split; [reflexivity|]. split; [reflexivity|].
  intros self env w w' h Hrun. split.
  - unfold try_except_cls. rewrite Hrun. reflexivity.
  - exact (start_server_raise_cleans self env w timeout_exn w' Hrun).
Qed.

Lemma timeout_error_base_exception_witness :
  Pgtest._start_server (fixture false) env_down world_dirs =
    (Raise timeout_exn, snd (Pgtest._start_server (fixture false) env_down world_dirs)) /\
  try_except_cls Exception (Pgtest._start_server (fixture false)) (fun _ => ret tt)
                 env_down world_dirs =
    (Raise timeout_exn, snd (Pgtest._start_server (fixture false) env_down world_dirs)).
Proof.
  assert (H : Pgtest._start_server (fixture false) env_down world_dirs =
    (Raise timeout_exn, snd (Pgtest._start_server (fixture false) env_down world_dirs)))
    by (vm_compute; reflexivity).
  split; [exact H|].
  exact (proj1 (proj2 (proj2 timeout_error_base_exception) (fixture false) env_down
                  world_dirs _ (fun _ => ret tt) H)).
Defined.

(** ** C4: [_cleanup] *)

(** C4. [_cleanup] never raises, whether or not the base directory
    exists; it removes exactly the tree below the base directory, does
    nothing at all with [no_cleanup], and a second run leaves the file
    system as the first one left it. *)
Theorem cleanup_removes_tree_idempotent : forall self env w,
  fst (Pgtest._cleanup self env w) = Ok tt /\
  (forall p, p ∈ w_fs (snd (Pgtest._cleanup self env w)) <->
             p ∈ w_fs w /\
             (Pgtest.no_cleanup self = true \/ under (Pgtest.base_dir self) p = false)) /\
  (if Pgtest.no_cleanup self then Pgtest._cleanup self env w = (Ok tt, w) else True) /\
  fst ((Pgtest._cleanup self ;;; Pgtest._cleanup self) env w) = Ok tt /\
  w_fs (snd ((Pgtest._cleanup self ;;; Pgtest._cleanup self) env w)) =
    w_fs (snd (Pgtest._cleanup self env w)).
Proof.
  intros self env w. unfold Pgtest._cleanup.
  destruct (Pgtest.no_cleanup self) eqn:Hnc; simpl.
  - repeat split; auto. intros [H _]. exact H.
  - split; [reflexivity|]. split; [|split; [exact I|split; [reflexivity|]]].
    + intros p. rewrite elem_of_filter. split.
      * intros [H1 H2]. split; [exact H2|right; exact H1].
      * intros [H1 [H2|H2]]; [discriminate|]. split; assumption.
    + apply set_eq. intros p. rewrite !elem_of_filter. tauto.
Qed.

(** ** C5: [_stop_server] *)

(** C5. [_stop_server] runs [pg_ctl stop -m fast -D <cluster>]; a non-empty
    standard error raises [RuntimeError] with it, after [_cleanup] ran;
    an empty one returns normally and touches nothing else. *)
Theorem stop_server_stderr : forall self env w out err,
  e_run env (Pgtest.stop_cmd self) = Some (out, err) ->
  Pgtest.stop_cmd self =
    (quoted (py_str_opt (Pgtest.pg_ctl_exe self)) ++ " stop -m fast -D "
     ++ Pgtest.cluster self)%string /\
  (exists l, w_log (snd (Pgtest._stop_server self env w)) =
             w_log w ++ EvShell (Pgtest.stop_cmd self) :: l) /\
  (if Pgtest.str_nonempty err then
     fst (Pgtest._stop_server self env w) = Raise (mkExn RuntimeError err) /\
     w_fs (snd (Pgtest._stop_server self env w)) =
       cleaned_fs (Pgtest.no_cleanup self) (Pgtest.base_dir self) (w_fs w)
   else
     Pgtest._stop_server self env w =
       (Ok tt, mkWorld (w_fs w) (w_clock w) (w_log w ++ [EvShell (Pgtest.stop_cmd self)])
                       (w_ports w) (w_tmp w))).
Proof.
  intros self env w out err Hrun.
  unfold Pgtest._stop_server, Pgtest.cleanup_on_error, try_except, run_shell, bind, emit, ask.
  simpl. rewrite Hrun. simpl.
  split; [reflexivity|].
  destruct (Pgtest.str_nonempty err); simpl.
  - unfold Pgtest._cleanup, cleaned_fs.
    destruct (Pgtest.no_cleanup self); simpl.
    + split; [exists []; reflexivity|]. split; reflexivity.
    + split; [eexists; rewrite <- app_assoc; reflexivity|]. split; reflexivity.
  - split; [exists []; reflexivity|]. reflexivity.
Qed.

Lemma stop_server_stderr_witness :
  e_run env_stop_fails (Pgtest.stop_cmd (fixture false)) =
    Some (EmptyString, "pg_ctl: PID file does not exist"%string) /\
  fst (Pgtest._stop_server (fixture false) env_stop_fails world_dirs) =
    Raise (mkExn RuntimeError "pg_ctl: PID file does not exist") /\
  w_fs (snd (Pgtest._stop_server (fixture false) env_stop_fails world_dirs)) =
    cleaned_fs false tmp_base (w_fs world_dirs).
Proof.
  assert (H : e_run env_stop_fails (Pgtest.stop_cmd (fixture false)) =
                Some (EmptyString, "pg_ctl: PID file does not exist"%string))
    by (vm_compute; reflexivity).
  split; [exact H|].
  exact (proj2 (proj2 (stop_server_stderr (fixture false) env_stop_fails world_dirs _ _ H))).
Defined.

(** ** C3: [close] and the [with] statement *)

(** C3. [close] is [_stop_server] followed by [_cleanup], and a [with]
    block over a [PGTest] runs [close] after the block on every way out
    of it: after a normal end, and after an exception, which is re-raised
    once [close] returned (an exception of [close] itself replaces it). *)
Theorem close_with_statement :
  (forall self, Pgtest.close self = (Pgtest._stop_server self ;;; Pgtest._cleanup self)) /\
  (forall self (body : Pgtest.PGTest -> M unit) env w,
      with_stmt self Pgtest.__enter__ Pgtest.__exit__ body env w =
      match body self env w with
      | (Ok _, w1) => (Pgtest.close self ;;; ret tt) env w1
      | (Raise e, w1) => (Pgtest.close self ;;; raise_exn e) env w1
      | (Stuck, w1) => (Stuck, w1)
      end).
Proof.
  split; [reflexivity|].
  intros self body env w.
  unfold with_stmt, Pgtest.__enter__, Pgtest.__exit__, bind, ret. simpl.
  destruct (body self env w) as [[a|e|] w1]; [| |reflexivity];
    destruct (Pgtest.close self env w1) as [[[]|e'|] w2]; reflexivity.
Qed.

(** ** C7: [is_valid_port] *)

Lemma ltb_range_bool_decide (p : Z) :
  ((1024 <? p) && (p <? 65535)) = bool_decide (1024 < p < 65535).
Proof.
  destruct (Z.ltb_spec 1024 p), (Z.ltb_spec p 65535); simpl; symmetry;
    [apply bool_decide_eq_true_2 | apply bool_decide_eq_false_2 ..]; lia.
Qed.

Example is_valid_port_1024 : Pgtest.is_valid_port (PyInt 1024) = false.
Proof. reflexivity. Qed.
Example is_valid_port_1025 : Pgtest.is_valid_port (PyInt 1025) = true.
Proof. reflexivity. Qed.
Example is_valid_port_65534 : Pgtest.is_valid_port (PyInt 65534) = true.
Proof. reflexivity. Qed.
Example is_valid_port_65535 : Pgtest.is_valid_port (PyInt 65535) = false.
Proof. reflexivity. Qed.
Example is_valid_port_str : Pgtest.is_valid_port (PyStr "5432") = false.
Proof. reflexivity. Qed.

(** In the legacy module a [long] in the range, such as [5432L], is not
    accepted: [is_valid_port] raises [TypeError], and so does it for an
    integer literal too large for an [int], such as [2 ** 63]. *)
Lemma legacy_is_valid_port_long :
  1024 < 5432 < 65535 /\
  Legacy.is_valid_port (Legacy.Py2Long 5432) env_up world0 =
    (Raise (mkExn TypeError "Port must be of type int"), world0) /\
  Legacy.is_valid_port (Legacy.py2_integer (2 ^ 63)) env_up world0 =
    (Raise (mkExn TypeError "Port must be of type int"), world0).
Proof. split; [lia|]. split; reflexivity. Qed.

(** C7 (as amended). In the packaged module an [int] is a valid port
    exactly when it lies strictly between 1024 and 65535, and any other
    value gives [False] (a [bool] is the integer 0 or 1).  In the legacy
    module (Python 2) an [int] or [bool] is checked against the same
    interval, and any other value raises [TypeError]: a [long] (whatever
    its value) and every non-integer; an integer literal is checked
    against the interval when it fits in an [int] and raises otherwise. *)
Theorem is_valid_port_open_interval :
  (forall v, Pgtest.is_valid_port v = true <-> exists p, v = PyInt p /\ 1024 < p < 65535) /\
  (forall v, Pgtest.is_valid_port v =
             match py_int_value v with
             | Some p => bool_decide (1024 < p < 65535)
             | None => false
             end) /\
  (forall v env w, Legacy.is_valid_port v env w =
             (match Legacy.py2_int_value v with
              | Some p => Ok (bool_decide (1024 < p < 65535))
              | None => Raise (mkExn TypeError "Port must be of type int")
              end, w)) /\
  (forall p env w, Legacy.is_valid_port (Legacy.py2_integer p) env w =
             (if (- Legacy.maxint - 1 <=? p) && (p <=? Legacy.maxint)
              then Ok (bool_decide (1024 < p < 65535))
              else Raise (mkExn TypeError "Port must be of type int"), w)).
Proof.
  split; [|split; [|split]].
  - intros v. unfold Pgtest.is_valid_port. split.
    + destruct v as [| |p| | |]; simpl; try discriminate.
      * destruct b; simpl; discriminate.
      * intros H. exists p. split; [reflexivity|].
        apply andb_prop in H as [H1 H2]. apply Z.ltb_lt in H1, H2. lia.
    + intros [p [-> Hp]]. simpl.
      apply andb_true_intro. split; apply Z.ltb_lt; lia.
  - intros v. unfold Pgtest.is_valid_port.
    destruct v; simpl; try reflexivity; apply ltb_range_bool_decide.
  - intros v env w. unfold Legacy.is_valid_port.
    destruct v; simpl; try reflexivity; unfold ret; rewrite ltb_range_bool_decide; reflexivity.
  - intros p env w. unfold Legacy.py2_integer.
    destruct ((- Legacy.maxint - 1 <=? p) && (p <=? Legacy.maxint)); simpl; [|reflexivity].
    unfold Legacy.is_valid_port, ret. simpl. rewrite ltb_range_bool_decide. reflexivity.
Qed.

(** ** C8: the identifier validator *)

Lemma re_star_dollar_iff s :
  Pgtest.re_star_dollar s = true <->
  all_rest_class s = true \/
  exists r, s = (r ++ String newline EmptyString)%string /\ all_rest_class r = true.
Proof.
  induction s as [|c s IH]; simpl.
  - split; [left; reflexivity|intros _; reflexivity].
  - rewrite orb_true_iff, andb_true_iff, IH. split.
    + intros [Hd|[Hc [Hs|[r [-> Hr]]]]].
      * destruct s; [|discriminate].
        apply Ascii.eqb_eq in Hd. subst c. right. exists EmptyString. split; reflexivity.
      * left. rewrite Hc, Hs. reflexivity.
      * right. exists (String c r). simpl. rewrite Hc, Hr. split; reflexivity.
    + intros [H|[r [Hs Hr]]].
      * apply andb_true_iff in H as [Hc Hs]. right. split; [exact Hc|left; exact Hs].
      * destruct r as [|c' r]; simpl in Hs.
        -- injection Hs as -> ->. left. reflexivity.
        -- injection Hs as -> ->. simpl in Hr. apply andb_true_iff in Hr as [Hc Hr].
           right. split; [exact Hc|]. right. exists r. split; [reflexivity|exact Hr].
Qed.

Lemma prefix_cons a s1 b s2 :
  String.prefix (String a s1) (String b s2) =
  if ascii_dec a b then String.prefix s1 s2 else false.
Proof. reflexivity. Qed.

Lemma prefix_nil s : String.prefix EmptyString s = true.
Proof. destruct s; reflexivity. Qed.

Lemma append_cons c s t : (String c s ++ t)%string = String c (s ++ t)%string.
Proof. reflexivity. Qed.

Lemma prefix_pg_app_newline r :
  String.prefix "pg_" (r ++ String newline EmptyString)%string = String.prefix "pg_" r.
Proof.
  destruct r as [|c1 [|c2 [|c3 r]]]; rewrite ?append_cons; cbn [String.append];
    rewrite ?prefix_cons, ?prefix_nil;
    try reflexivity;
    repeat (match goal with |- context [ascii_dec ?a ?b] => destruct (ascii_dec a b) end);
    try reflexivity;
    match goal with H : _ = newline |- _ => vm_compute in H; discriminate H end.
Qed.

Lemma ident_spec_cons c s :
  ident_spec (String c s) = true <->
  negb (String.prefix "pg_" (String c s)) = true /\
  Pgtest.re_class_first c = true /\ all_rest_class s = true.
Proof. unfold ident_spec. rewrite !andb_true_iff. reflexivity. Qed.

Lemma re_match_ident_cons c s :
  Pgtest.re_match_ident (String c s) = true <->
  negb (String.prefix "pg_" (String c s)) = true /\
  Pgtest.re_class_first c = true /\ Pgtest.re_star_dollar s = true.
Proof. unfold Pgtest.re_match_ident. rewrite !andb_true_iff. reflexivity. Qed.

(** The regular expression accepts exactly the identifiers of the grammar,
    and those identifiers followed by one final newline. *)
Lemma re_match_ident_iff s :
  Pgtest.re_match_ident s = true <->
  ident_spec s = true \/
  exists r, s = (r ++ String newline EmptyString)%string /\ ident_spec r = true.
Proof.
  destruct s as [|c s].
  - split; [discriminate|]. intros [H|[r [H _]]]; [discriminate|]. destruct r; discriminate.
  - rewrite re_match_ident_cons, re_star_dollar_iff. split.
    + intros [Hp [Hc [Hs|[r [-> Hr]]]]].
      * left. apply ident_spec_cons. auto.
      * right. exists (String c r). split; [reflexivity|].
        apply ident_spec_cons. split; [|auto].
        rewrite <- append_cons, prefix_pg_app_newline in Hp. exact Hp.
    + intros [H|[r [Hs Hr]]].
      * apply ident_spec_cons in H as [Hp [Hc Hs]]. auto.
      * destruct r as [|c' r]; [discriminate|].
        apply ident_spec_cons in Hr as [Hp [Hc Hr]].
        rewrite append_cons in Hs. injection Hs as -> ->.
        split; [rewrite <- append_cons, prefix_pg_app_newline; exact Hp|].
        split; [exact Hc|]. right. exists r. auto.
Qed.

(** C8 (code bug). The pattern ends in [$], which also matches before a
    final newline: [is_valid_db_object_name] accepts ["postgres\n"],
    which the identifier grammar of the claim rejects. *)
Theorem db_object_name_trailing_newline :
  (forall env w, Pgtest.is_valid_db_object_name (PyStr name_nl) env w = (Ok true, w)) /\
  ident_spec name_nl = false.
Proof. split; [intros env w; reflexivity|reflexivity]. Qed.

(** Non-strings raise [TypeError]. *)
Lemma db_object_name_type_error v env w :
  match v with PyStr _ => False | _ => True end ->
  fst (Pgtest.is_valid_db_object_name v env w) = Raise (mkExn TypeError
    (match v with
     | PyBytes _ => "cannot use a string pattern on a bytes-like object"
     | _ => "name must be a valid string" end)).
Proof. destruct v; simpl; tauto. Qed.

(** ** C9: [bind_unused_port] *)

Lemma reroll_loop_valid rec : forall g port env w q w',
  Pgtest.reroll_loop rec g port env w = (Ok q, w') ->
  Pgtest.is_valid_port (PyInt q) = true.
Proof.
  induction g as [|g IH]; intros port env w q w'; simpl;
    destruct (Pgtest.is_valid_port (PyInt port)) eqn:Hv.
  - unfold ret. intros H. injection H as <- _. exact Hv.
  - discriminate.
  - unfold ret. intros H. injection H as <- _. exact Hv.
  - unfold bind. destruct (rec env w) as [[q'|e|] w1]; try discriminate. apply IH.
Qed.

(** C9. Whenever [bind_unused_port] returns a port, that port passes
    [is_valid_port]: it lies strictly between 1024 and 65535. *)
Theorem bind_unused_port_valid : forall fuel env w p w',
  Pgtest.bind_unused_port fuel env w = (Ok p, w') ->
  Pgtest.is_valid_port (PyInt p) = true /\ 1024 < p < 65535.
Proof.
  intros fuel env w p w' H.
  assert (Hv : Pgtest.is_valid_port (PyInt p) = true).
  { destruct fuel as [|f]; [discriminate|]. simpl in H.
    unfold bind, get, put in H. simpl in H.
    destruct (w_ports w) as [|p0 ps]; [discriminate|].
    destruct (Pgtest.reroll_loop (Pgtest.bind_unused_port f) f p0 env _)
      as [[q|e|] w1] eqn:E; try discriminate.
    simpl in H. injection H as <- _. exact (reroll_loop_valid _ _ _ _ _ _ _ E). }
  split; [exact Hv|].
  destruct (proj1 (proj1 is_valid_port_open_interval (PyInt p)) Hv) as [p' [Hp Hr]].
  injection Hp as <-. exact Hr.
Qed.

Lemma bind_unused_port_valid_witness :
  Pgtest.bind_unused_port Pgtest.bind_fuel env_up world_ports =
    (Ok 47251, snd (Pgtest.bind_unused_port Pgtest.bind_fuel env_up world_ports)) /\
  Pgtest.is_valid_port (PyInt 47251) = true /\ 1024 < 47251 < 65535.
Proof.
  assert (H : Pgtest.bind_unused_port Pgtest.bind_fuel env_up world_ports =
    (Ok 47251, snd (Pgtest.bind_unused_port Pgtest.bind_fuel env_up world_ports)))
    by (vm_compute; reflexivity).
  split; [exact H|].
  exact (bind_unused_port_valid _ _ _ _ _ H).
Defined.

(** ** C2: validation before side effects *)

(** C2 (code bug). Every assertion of [__init__] but the last runs before
    anything is created; the [max_connections] check runs after
    [tempfile.mkdtemp()], so a non-integer [max_connections] with no
    [base_dir] raises [AssertionError] with a new temporary directory
    left behind (no [_cleanup] runs on this path).  By contrast an invalid
    user name fails with the file system untouched. *)
Theorem init_max_connections_after_mkdtemp :
  fst (Pgtest.__init__ (PyStr "postgres") PyNone None false None None None (PyStr "11")
         env_up world0) =
    Raise (mkExn AssertionError "Maximum number of connections must be an integer.") /\
  (tmp_base ∉ w_fs world0) /\
  w_fs (snd (Pgtest.__init__ (PyStr "postgres") PyNone None false None None None
               (PyStr "11") env_up world0)) = {[tmp_base]} /\
  fst (Pgtest.__init__ (PyStr "not-a-name") PyNone None false None None None (PyInt 11)
         env_up world0) =
    Raise (mkExn AssertionError "Username must contain only letters and/or numbers") /\
  w_fs (snd (Pgtest.__init__ (PyStr "not-a-name") PyNone None false None None None
               (PyInt 11) env_up world0)) = w_fs world0.
Proof.
  split; [vm_compute; reflexivity|].
  split; [unfold world0; simpl; set_solver|].
  split; [vm_compute; reflexivity|].
  split; vm_compute; reflexivity.
Qed.

(** ** C6: database creation *)

(** *** No SQL statement in the packaged module *)

Definition log_no_sql (w w' : World) : Prop :=
  exists l, w_log w' = w_log w ++ l /\ Forall (fun ev => is_sql ev = false) l.

#[export] Instance log_no_sql_preorder : PreOrder log_no_sql.
Proof.
  split.
  - intros w. exists []. rewrite app_nil_r. split; [reflexivity|constructor].
  - intros w1 w2 w3 [l1 [H1 F1]] [l2 [H2 F2]]. exists (l1 ++ l2).
    rewrite H2, H1, app_assoc. split; [reflexivity|]. apply Forall_app. split; assumption.
Qed.

(** Proves [log_no_sql] for a step whose final world is explicit. *)
Ltac no_sql_direct :=
  intros ?env ?w; simpl;
  first [ exists []; rewrite app_nil_r; split; [reflexivity|constructor]
        | eexists; split; [reflexivity|repeat constructor] ].

Lemma no_sql_emit ev : is_sql ev = false -> preserves log_no_sql (emit ev).
Proof. intros H env w. exists [ev]. split; [reflexivity|]. constructor; [exact H|constructor]. Qed.

Lemma no_sql_set_fs fs : preserves log_no_sql (set_fs fs).
Proof. no_sql_direct. Qed.

Lemma no_sql_sleep ms : preserves log_no_sql (sleep ms).
Proof. no_sql_direct. Qed.

Lemma no_sql_utcnow : preserves log_no_sql utcnow.
Proof. no_sql_direct. Qed.

Lemma no_sql_mkdtemp : preserves log_no_sql mkdtemp.
Proof.
  intros env w. unfold mkdtemp, bind, get. simpl.
  destruct (w_tmp w); simpl; exists []; rewrite app_nil_r; split; constructor.
Qed.

#[export] Hint Resolve no_sql_set_fs no_sql_sleep no_sql_utcnow no_sql_mkdtemp : preserves.

Ltac no_sql_auto :=
  repeat (preserves_step
          || (apply no_sql_emit; reflexivity)
          || eauto with preserves typeclass_instances).

Lemma no_sql_path_exists p : preserves log_no_sql (path_exists p).
Proof. unfold path_exists. no_sql_auto. Qed.

Lemma no_sql_py_assert b msg : preserves log_no_sql (py_assert b msg).
Proof. unfold py_assert. no_sql_auto. Qed.

#[export] Hint Resolve no_sql_path_exists no_sql_py_assert : preserves.

Lemma no_sql_rmtree_ignore_errors p : preserves log_no_sql (rmtree_ignore_errors p).
Proof. unfold rmtree_ignore_errors. no_sql_auto. Qed.

#[export] Hint Resolve no_sql_rmtree_ignore_errors : preserves.

Lemma no_sql_rmtree p : preserves log_no_sql (rmtree p).
Proof. unfold rmtree. no_sql_auto. Qed.

Lemma no_sql_makedirs p : preserves log_no_sql (makedirs p).
Proof. unfold makedirs. no_sql_auto. Qed.

Lemma no_sql_copytree a b : preserves log_no_sql (copytree a b).
Proof. unfold copytree. no_sql_auto. Qed.

Lemma no_sql_run_shell cmd : preserves log_no_sql (run_shell cmd).
Proof. unfold run_shell. no_sql_auto. Qed.

#[export] Hint Resolve no_sql_rmtree no_sql_makedirs no_sql_copytree no_sql_run_shell
  : preserves.

Lemma no_sql_popen cmd : preserves log_no_sql (popen cmd).
Proof. unfold popen. no_sql_auto. Qed.

Lemma no_sql_pg_connect db : preserves log_no_sql (pg_connect db).
Proof. unfold pg_connect. no_sql_auto. Qed.

#[export] Hint Resolve no_sql_popen no_sql_pg_connect : preserves.

Lemma no_sql_reroll_loop rec g p :
  preserves log_no_sql rec -> preserves log_no_sql (Pgtest.reroll_loop rec g p).
Proof.
  intros Hrec. revert p. induction g as [|g IH]; intros p; simpl; no_sql_auto.
Qed.

Lemma no_sql_bind_unused_port fuel : preserves log_no_sql (Pgtest.bind_unused_port fuel).
Proof.
  induction fuel as [|f IH]; simpl; [no_sql_auto|].
  intros env w. unfold bind, get. simpl.
  destruct (w_ports w) as [|p ps]; simpl; [exists []; rewrite app_nil_r; split; constructor|].
  set (w1 := mkWorld (w_fs w) (w_clock w) (w_log w ++ [EvBind p]) ps (w_tmp w)).
  assert (H1 : log_no_sql w w1).
  { exists [EvBind p]. split; [reflexivity|repeat constructor]. }
  pose proof (no_sql_reroll_loop _ f p IH env w1) as H2.
  destruct (Pgtest.reroll_loop (Pgtest.bind_unused_port f) f p env w1) as [[q|e|] w2];
    simpl in *; (etransitivity; [exact H1|]).
  - etransitivity; [exact H2|]. exists [EvClose p]. split; [reflexivity|repeat constructor].
  - exact H2.
  - exact H2.
Qed.

Lemma no_sql_which n : preserves log_no_sql (Pgtest.which n).
Proof. unfold Pgtest.which. no_sql_auto. Qed.

Lemma no_sql_is_valid_cluster_dir p : preserves log_no_sql (Pgtest.is_valid_cluster_dir p).
Proof. unfold Pgtest.is_valid_cluster_dir. no_sql_auto. apply no_sql_which. Qed.

Lemma no_sql_is_valid_db_object_name v :
  preserves log_no_sql (Pgtest.is_valid_db_object_name v).
Proof. unfold Pgtest.is_valid_db_object_name. no_sql_auto. Qed.

Lemma no_sql_cleanup self : preserves log_no_sql (Pgtest._cleanup self).
Proof. unfold Pgtest._cleanup. no_sql_auto. Qed.

#[export] Hint Resolve no_sql_bind_unused_port no_sql_which no_sql_is_valid_cluster_dir
  no_sql_is_valid_db_object_name no_sql_cleanup : preserves.

Lemma no_sql_wait_loop self E fuel : preserves log_no_sql (Pgtest.wait_loop self E fuel).
Proof.
  induction fuel as [|f IH]; simpl; [no_sql_auto|].
  unfold Pgtest._is_connection_available. no_sql_auto.
Qed.

#[export] Hint Resolve no_sql_wait_loop : preserves.

(** Every run of [PGTest.__init__] of the packaged module, whatever its
    outcome, executes no SQL statement. *)
Lemma no_sql_init username port log_file no_cleanup copy_cluster base_dir pg_ctl
      max_connections :
  preserves log_no_sql (Pgtest.__init__ username port log_file no_cleanup copy_cluster
                          base_dir pg_ctl max_connections).
Proof.
  unfold Pgtest.__init__, Pgtest._create_dirs, Pgtest._init_base_dir,
    Pgtest._set_dir_permissions, Pgtest._start_server, Pgtest._wait_for_server_ready,
    Pgtest.cleanup_on_error.
  no_sql_auto.
Qed.

(** *** The legacy module creates the database when it is missing *)

Lemma bind_ok_inv {A B} (m : M A) (k : A -> M B) env w v w' :
  bind m k env w = (Ok v, w') ->
  exists a w1, m env w = (Ok a, w1) /\ k a env w1 = (Ok v, w').
Proof.
  unfold bind. destruct (m env w) as [[a| |] w1]; intros H; [eauto|discriminate|discriminate].
Qed.

Lemma init_database self username port log_file no_cleanup copy_cluster base_dir pg_ctl
      max_connections env w :
  fst (Pgtest.__init__ username port log_file no_cleanup copy_cluster base_dir pg_ctl
         max_connections env w) = Ok self ->
  Pgtest.database self = "postgres".
Proof.
  destruct (Pgtest.__init__ _ _ _ _ _ _ _ _ env w) as [r w'] eqn:E. simpl. intros ->.
  unfold Pgtest.__init__ in E.
  repeat (apply bind_ok_inv in E; destruct E as (? & ? & _ & E)).
  unfold ret in E. injection E as <-. reflexivity.
Qed.

Lemma legacy_start_server_after_ready self env w w1 :
  (popen (Legacy.start_cmd (e_win env) self) ;;; Legacy._wait_for_server_ready self 10)
    env w = (Ok tt, w1) ->
  e_connect env (w_clock w1) "postgres" = None ->
  Legacy.start_server self env w =
  match e_exec env (Legacy.select_query self) with
  | Some c =>
      (Raise (mkExn c "execute failed"),
       mkWorld (w_fs w1) (w_clock w1)
         (w_log w1 ++ [EvConnect "postgres"; EvAutocommit; EvSQL (Legacy.select_query self)])
         (w_ports w1) (w_tmp w1))
  | None =>
      if e_count env (Legacy.select_query self) <=? 0 then
        (match e_exec env (Legacy.create_query self) with
         | None => Ok true
         | Some c => Raise (mkExn c "execute failed")
         end,
         mkWorld (w_fs w1) (w_clock w1)
           (w_log w1 ++ [EvConnect "postgres"; EvAutocommit; EvSQL (Legacy.select_query self);
                         EvSQL (Legacy.create_query self)])
           (w_ports w1) (w_tmp w1))
      else
        (Ok true,
         mkWorld (w_fs w1) (w_clock w1)
           (w_log w1 ++ [EvConnect "postgres"; EvAutocommit; EvSQL (Legacy.select_query self)])
           (w_ports w1) (w_tmp w1))
  end.
Proof.
  intros Hready Hconn.
  unfold Legacy.start_server. unfold bind at 1. unfold ask at 1. cbv beta iota.
  unfold bind at 1. unfold try_except at 1. rewrite Hready.
  unfold try_except, Legacy._create_database, sql_execute, pg_connect,
    bind, emit, ask, utcnow, get, ret, raise, raise_exn.
  simpl. rewrite Hconn. simpl.
  destruct (e_exec env (Legacy.select_query self)) as [c|]; simpl;
    [rewrite <- !app_assoc; reflexivity|].
  destruct (e_count env (Legacy.select_query self) <=? 0); simpl;
    [|rewrite <- !app_assoc; reflexivity].
  destruct (e_exec env (Legacy.create_query self)); simpl; rewrite <- !app_assoc; reflexivity.
Qed.

(** The packaged module runs to the end without any SQL statement. *)
Lemma init_issues_no_create_database :
  fst (Pgtest.__init__ (PyStr "postgres") PyNone None false None None None (PyInt 11)
         env_up world0) = Ok (fixture false) /\
  existsb is_sql (w_log (snd (Pgtest.__init__ (PyStr "postgres") PyNone None false None
                                None None (PyInt 11) env_up world0))) = false.
Proof. split; vm_compute; reflexivity. Qed.

(** C6 (as amended). In the legacy module, once the readiness wait
    succeeded, [start_server] opens one connection to [postgres], sets
    autocommit, counts the databases of the configured name and issues
    [CREATE DATABASE "<name>"] (the name in double quotes) only when there
    is none; it returns [True] when the statements it issues succeed, and
    an error the server raises for either statement propagates with no
    cleanup.  The packaged module issues no SQL statement at all: its
    database is the fixed [postgres]. *)
Theorem create_database_policy :
  (forall self env w w1,
      (popen (Legacy.start_cmd (e_win env) self) ;;; Legacy._wait_for_server_ready self 10)
        env w = (Ok tt, w1) ->
      e_connect env (w_clock w1) "postgres" = None ->
      Legacy.start_server self env w =
        match e_exec env (Legacy.select_query self) with
        | Some c =>
            (Raise (mkExn c "execute failed"),
             mkWorld (w_fs w1) (w_clock w1)
               (w_log w1 ++ [EvConnect "postgres"; EvAutocommit; EvSQL (Legacy.select_query self)])
               (w_ports w1) (w_tmp w1))
        | None =>
            if e_count env (Legacy.select_query self) <=? 0 then
              (match e_exec env (Legacy.create_query self) with
               | None => Ok true
               | Some c => Raise (mkExn c "execute failed")
               end,
               mkWorld (w_fs w1) (w_clock w1)
                 (w_log w1 ++ [EvConnect "postgres"; EvAutocommit; EvSQL (Legacy.select_query self);
                               EvSQL (Legacy.create_query self)])
                 (w_ports w1) (w_tmp w1))
            else
              (Ok true,
               mkWorld (w_fs w1) (w_clock w1)
                 (w_log w1 ++ [EvConnect "postgres"; EvAutocommit; EvSQL (Legacy.select_query self)])
                 (w_ports w1) (w_tmp w1))
        end) /\
  (forall self, Legacy.create_query self =
                  ("CREATE DATABASE " ++ quoted (Legacy.database self))%string) /\
  (forall username port log_file no_cleanup copy_cluster base_dir pg_ctl max_connections
          env w,
      let r := Pgtest.__init__ username port log_file no_cleanup copy_cluster base_dir
                 pg_ctl max_connections env w in
      (forall self, fst r = Ok self -> Pgtest.database self = "postgres") /\
      exists l, w_log (snd r) = w_log w ++ l /\ Forall (fun ev => is_sql ev = false) l).
Proof.
  split; [exact legacy_start_server_after_ready|].
  split; [reflexivity|].
  intros username port log_file no_cleanup copy_cluster base_dir pg_ctl max_connections env w r.
  split; [|exact (no_sql_init username port log_file no_cleanup copy_cluster base_dir
                    pg_ctl max_connections env w)].
  intros self Hr. exact (init_database self username port log_file no_cleanup copy_cluster
                           base_dir pg_ctl max_connections env w Hr).
Qed.

Lemma create_database_policy_witness :
  let pre := (popen (Legacy.start_cmd (e_win env_up) legacy_fixture) ;;;
              Legacy._wait_for_server_ready legacy_fixture 10) env_up world_dirs in
  let w1 := snd pre in
  fst pre = Ok tt /\ e_connect env_up (w_clock w1) "postgres" = None /\
  Legacy.start_server legacy_fixture env_up world_dirs =
    match e_exec env_up (Legacy.select_query legacy_fixture) with
    | Some c =>
        (Raise (mkExn c "execute failed"),
         mkWorld (w_fs w1) (w_clock w1)
           (w_log w1 ++ [EvConnect "postgres"; EvAutocommit; EvSQL (Legacy.select_query legacy_fixture)])
           (w_ports w1) (w_tmp w1))
    | None =>
        if e_count env_up (Legacy.select_query legacy_fixture) <=? 0 then
          (match e_exec env_up (Legacy.create_query legacy_fixture) with
           | None => Ok true
           | Some c => Raise (mkExn c "execute failed")
           end,
           mkWorld (w_fs w1) (w_clock w1)
             (w_log w1 ++ [EvConnect "postgres"; EvAutocommit; EvSQL (Legacy.select_query legacy_fixture);
                           EvSQL (Legacy.create_query legacy_fixture)])
             (w_ports w1) (w_tmp w1))
        else
          (Ok true,
           mkWorld (w_fs w1) (w_clock w1)
             (w_log w1 ++ [EvConnect "postgres"; EvAutocommit; EvSQL (Legacy.select_query legacy_fixture)])
             (w_ports w1) (w_tmp w1))
    end.
Proof.
  intros pre w1.
  assert (Hpre : pre = (Ok tt, w1)) by (unfold w1, pre; vm_compute; reflexivity).
  split; [rewrite Hpre; reflexivity|].
  split; [unfold w1, pre; vm_compute; reflexivity|].
  apply (proj1 create_database_policy).
  - exact Hpre.
  - unfold w1, pre; vm_compute; reflexivity.
Defined.

(* ------------------------------------------------------------------ *)
(** ** Further properties of the code *)

Lemma setdefault_union k v (d : gmap string pyval) :
  Legacy.setdefault k v d = d ∪ {[k := v]}.
Proof.
  unfold Legacy.setdefault. apply map_eq. intros i.
  rewrite lookup_union. destruct (decide (i = k)) as [->|Hne].
  - destruct (d !! k) eqn:E; rewrite ?E; simplify_map_eq; reflexivity.
  - destruct (d !! k) eqn:E; simplify_map_eq; destruct (d !! i); reflexivity.
Qed.

Lemma legacy_dsn_union self kwargs :
  Legacy.dsn self kwargs = kwargs ∪ Legacy.dsn self ∅.
Proof.
  unfold Legacy.dsn. rewrite !setdefault_union, !(left_id_L ∅ (∪)).
  rewrite <- !(assoc_L (∪)). reflexivity.
Qed.

Lemma legacy_dsn_empty self :
  Legacy.dsn self ∅ =
  <["database" := PyStr (Legacy.database self)]> (<["user" := PyStr (Legacy.username self)]>
    (<["host" := PyStr "localhost"]> (<["port" := PyInt (Legacy.port self)]> ∅))).
Proof.
  unfold Legacy.dsn, Legacy.setdefault. simplify_map_eq. reflexivity.
Qed.

(** X1. [dsn] of the legacy module keeps every keyword argument of the
    caller as it is and adds [port], [host] ([localhost]), [user] and
    [database] from the fixture only where the caller gave none: the
    result is the left-biased union of the arguments and these four
    defaults. *)
Theorem legacy_dsn_defaults self kwargs :
  Legacy.dsn self kwargs =
  kwargs ∪ <["database" := PyStr (Legacy.database self)]>
             (<["user" := PyStr (Legacy.username self)]>
               (<["host" := PyStr "localhost"]> (<["port" := PyInt (Legacy.port self)]> ∅))).
Proof. rewrite legacy_dsn_union, legacy_dsn_empty. reflexivity. Qed.

Lemma close_run self env w :
  w_fs (snd (Pgtest.close self env w)) =
    cleaned_fs (Pgtest.no_cleanup self) (Pgtest.base_dir self) (w_fs w) /\
  (fst (Pgtest.close self env w) = Ok tt \/
   exists e, fst (Pgtest.close self env w) = Raise e /\
     (exn_cls e = RuntimeError \/ exn_cls e = OSError)).
Proof.
  unfold Pgtest.close, Pgtest._stop_server, Pgtest.cleanup_on_error, try_except, run_shell,
    Pgtest._cleanup, cleaned_fs, bind, emit, ask, ret, raise, raise_exn,
    rmtree_ignore_errors, get, set_fs.
  simpl. destruct (e_run env (Pgtest.stop_cmd self)) as [[out err]|]; simpl;
    [destruct (Pgtest.str_nonempty err)|];
    destruct (Pgtest.no_cleanup self); simpl; eauto 6.
Qed.

(** X3. [close] of the packaged module always runs the cleanup: whatever
    [pg_ctl stop] reports, the paths left are those of [cleaned_fs] (the
    base directory tree removed unless [no_cleanup]), and [close] either
    returns or raises the [RuntimeError] of a non-empty stderr or the
    [OSError] of a failed [Popen].  So a [with] block on the fixture ends
    with the base directory removed whether its body returned or
    raised. *)
Theorem close_always_cleans_up :
  (forall self env w,
     w_fs (snd (Pgtest.close self env w)) =
       cleaned_fs (Pgtest.no_cleanup self) (Pgtest.base_dir self) (w_fs w) /\
     (fst (Pgtest.close self env w) = Ok tt \/
      exists e, fst (Pgtest.close self env w) = Raise e /\
        (exn_cls e = RuntimeError \/ exn_cls e = OSError))) /\
  (forall self (body : Pgtest.PGTest -> M unit) env w,
     match body self env w with
     | (Stuck, _) => True
     | (_, w1) =>
         w_fs (snd (with_stmt self Pgtest.__enter__ Pgtest.__exit__ body env w)) =
           cleaned_fs (Pgtest.no_cleanup self) (Pgtest.base_dir self) (w_fs w1)
     end).
Proof.
  split; [exact close_run|].
  intros self body env w.
  unfold with_stmt, Pgtest.__enter__, Pgtest.__exit__, bind, ret. simpl.
  destruct (body self env w) as [[a|e|] w1]; [| |exact I];
    destruct (close_run self env w1) as [Hfs _];
    destruct (Pgtest.close self env w1) as [[[]|e'|] w2]; exact Hfs.
Qed.

(** X4. [close] of the legacy module: when [pg_ctl stop] runs, a non-empty
    stderr makes it raise [RuntimeError] with that text and an empty one
    makes it return, and in both cases the base directory tree is
    removed (unless [no_cleanup]); when [Popen] itself fails, the
    [OSError] propagates before any cleanup and every path is left in
    place. *)
Theorem legacy_close_result :
  forall self env w,
  match e_run env (Legacy.stop_cmd self) with
  | None =>
      fst (Legacy.close self env w) = Raise (mkExn OSError "Popen failed") /\
      w_fs (snd (Legacy.close self env w)) = w_fs w
  | Some (_, err) =>
      fst (Legacy.close self env w) =
        (if Pgtest.str_nonempty err then Raise (mkExn RuntimeError err) else Ok tt) /\
      w_fs (snd (Legacy.close self env w)) =
        cleaned_fs (Legacy.no_cleanup self) (Legacy.base_dir self) (w_fs w)
  end.
Proof.
  intros self env w.
  unfold Legacy.close, Legacy.stop_server, Legacy.cleanup, run_shell, cleaned_fs,
    bind, emit, ask, ret, raise, raise_exn, rmtree_ignore_errors, get, set_fs.
  simpl. destruct (e_run env (Legacy.stop_cmd self)) as [[out err]|]; simpl;
    [destruct (Pgtest.str_nonempty err)|];
    destruct (Legacy.no_cleanup self); simpl; auto.
Qed.

Lemma str_app_assoc (x y z : string) : (x ++ y ++ z)%string = ((x ++ y) ++ z)%string.
Proof. induction x as [|c x IH]; [reflexivity|]. rewrite !append_cons, IH. reflexivity. Qed.

Lemma prefix_app u b : String.prefix u (u ++ b) = true.
Proof.
  induction u as [|c u IH]; [apply prefix_nil|].
  rewrite append_cons, prefix_cons. destruct (ascii_dec c c); [exact IH|congruence].
Qed.

Lemma index0_cons u c s :
  String.index 0 u (String c s) =
  if String.prefix u (String c s) then Some O
  else match String.index 0 u s with Some n => Some (S n) | None => None end.
Proof. reflexivity. Qed.

Lemma str_contains_app u a b : Pgtest.str_contains u (a ++ u ++ b) = true.
Proof.
  unfold Pgtest.str_contains.
  assert (H : String.index 0 u (a ++ u ++ b) <> None).
  { induction a as [|c a IH].
    - change (String.index 0 u (u ++ b) <> None).
      destruct (u ++ b)%string as [|c s] eqn:E.
      + destruct u; [simpl; discriminate|discriminate E].
      + rewrite index0_cons, <- E, prefix_app. discriminate.
    - change (String.index 0 u (String c (a ++ u ++ b)) <> None).
      rewrite index0_cons. destruct (String.prefix u (String c (a ++ u ++ b))); [discriminate|].
      destruct (String.index 0 u (a ++ u ++ b)); [discriminate|contradiction]. }
  destruct (String.index 0 u (a ++ u ++ b)); [reflexivity|contradiction].
Qed.

Lemma str_nonempty_app a c s b : Pgtest.str_nonempty (a ++ String c s ++ b) = true.
Proof. destruct a; reflexivity. Qed.

(** X5. On a stopped cluster, whose [pg_ctl status] output contains
    [pg_ctl: no server running], the legacy [is_valid_cluster_dir]
    returns [True] (the output contains [server]), and the legacy
    [is_server_running] returns [False] only when stderr is non-empty;
    with an empty stderr it falls off its end and returns [None]. *)
Theorem legacy_status_of_stopped_cluster exe path env w a b err :
  e_run env (dq ++ exe ++ dq ++ " status -D " ++ path)%string =
    Some ((a ++ pg_ctl_not_running ++ b)%string, err) ->
  fst (Legacy.is_valid_cluster_dir exe path env w) = Ok (Some true) /\
  fst (Legacy.is_server_running exe path env w) =
    (if Pgtest.str_nonempty err then Ok (Some false) else Ok None).
Proof.
  intros Hrun.
  assert (Hne : Pgtest.str_nonempty (a ++ pg_ctl_not_running ++ b) = true)
    by apply str_nonempty_app.
  assert (Hs : Pgtest.str_contains "server" (a ++ pg_ctl_not_running ++ b) = true).
  { replace (a ++ pg_ctl_not_running ++ b)%string with
      ((a ++ "pg_ctl: no ") ++ "server" ++ (" running" ++ b))%string
      by (rewrite <- !str_app_assoc; reflexivity).
    apply str_contains_app. }
  assert (Hn : Pgtest.str_contains "no server running" (a ++ pg_ctl_not_running ++ b) = true).
  { replace (a ++ pg_ctl_not_running ++ b)%string with
      ((a ++ "pg_ctl: ") ++ "no server running" ++ b)%string
      by (rewrite <- !str_app_assoc; reflexivity).
    apply str_contains_app. }
  unfold Legacy.is_valid_cluster_dir, Legacy.is_server_running, run_shell, bind, emit, ask, ret.
  simpl. rewrite Hrun. simpl. rewrite Hne, Hs, Hn. simpl.
  split; [reflexivity|]. destruct (Pgtest.str_nonempty err); reflexivity.
Qed.
Lemma legacy_status_of_stopped_cluster_witness :
  let env := env_status (pg_ctl_not_running ++ String newline EmptyString) EmptyString in
  e_run env (dq ++ pg_ctl_path ++ dq ++ " status -D " ++ path_join tmp_base "data")%string =
    Some ((EmptyString ++ pg_ctl_not_running ++ String newline EmptyString)%string, EmptyString) /\
  fst (Legacy.is_valid_cluster_dir pg_ctl_path (path_join tmp_base "data") env world_dirs) =
    Ok (Some true) /\
  fst (Legacy.is_server_running pg_ctl_path (path_join tmp_base "data") env world_dirs) =
    Ok None.
Proof.
  intros env.
  assert (H : e_run env (dq ++ pg_ctl_path ++ dq ++ " status -D " ++ path_join tmp_base "data")%string =
    Some ((EmptyString ++ pg_ctl_not_running ++ String newline EmptyString)%string, EmptyString))
    by reflexivity.
  split; [exact H|].
  exact (legacy_status_of_stopped_cluster _ _ _ world_dirs _ _ _ H).
Defined.



Lemma reroll_loop_unfold rec g port :
  Pgtest.reroll_loop rec g port =
  if Pgtest.is_valid_port (PyInt port) then ret port
  else match g with O => stuck | S g' => q <- rec ;; Pgtest.reroll_loop rec g' q end.
Proof. destruct g; reflexivity. Qed.

Lemma bind_unused_port_trace : forall fuel env w p w',
  Pgtest.bind_unused_port fuel env w = (Ok p, w') ->
  exists qs,
    w_ports w = qs ++ p :: w_ports w' /\
    Forall (fun q => Pgtest.is_valid_port (PyInt q) = false) qs /\
    Pgtest.is_valid_port (PyInt p) = true /\
    w_log w' = w_log w ++ map EvBind (qs ++ [p]) ++ map EvClose (rev (qs ++ [p])) /\
    w_fs w' = w_fs w /\ w_clock w' = w_clock w /\ w_tmp w' = w_tmp w.
Proof.
  induction fuel as [|f IH]; intros env w p w' H; [discriminate|].
  simpl in H. unfold bind at 1, get at 1 in H. simpl in H.
  destruct (w_ports w) as [|p0 ps] eqn:Hports; [discriminate|].
  unfold bind at 1, put at 1 in H. simpl in H.
  rewrite reroll_loop_unfold in H.
  destruct (Pgtest.is_valid_port (PyInt p0)) eqn:Hv.
  - unfold bind, ret, emit in H. simpl in H. injection H as <- <-. simpl.
    exists []. simpl. repeat split; auto.
    rewrite <- app_assoc. reflexivity.
  - destruct f as [|g]; [discriminate|].
    unfold bind at 1 in H. unfold bind at 1 in H.
    destruct (Pgtest.bind_unused_port (S g) env _) as [[q|e|] w1] eqn:Hin;
      try discriminate.
    destruct (IH env _ q w1 Hin) as (qs & Hp & Hall & Hq & Hlog & Hfs & Hclk & Htmp).
    simpl in Hp, Hlog, Hfs, Hclk, Htmp.
    rewrite reroll_loop_unfold, Hq in H.
    unfold bind, ret, emit in H. simpl in H. injection H as <- <-. simpl.
    exists (p0 :: qs). rewrite Hp. simpl. repeat split; auto.
    + rewrite Hlog, map_app, !map_app, rev_app_distr. simpl.
      rewrite map_app in *. simpl. rewrite <- !app_assoc. simpl. reflexivity.
Qed.
(** X7. When [bind_unused_port] returns a port [p], it took the ports the
    OS handed out in order: a run [qs] of invalid ports (each rejected by
    [is_valid_port]) and then [p], which is valid; it bound every one of
    them before closing any, closed them in reverse order, and left the
    paths, the clock and the temporary names as they were. *)
Theorem bind_unused_port_rerolls fuel env w p w' :
  Pgtest.bind_unused_port fuel env w = (Ok p, w') ->
  exists qs,
    w_ports w = qs ++ p :: w_ports w' /\
    Forall (fun q => Pgtest.is_valid_port (PyInt q) = false) qs /\
    Pgtest.is_valid_port (PyInt p) = true /\
    w_log w' = w_log w ++ map EvBind (qs ++ [p]) ++ map EvClose (rev (qs ++ [p])) /\
    w_fs w' = w_fs w /\ w_clock w' = w_clock w /\ w_tmp w' = w_tmp w.
Proof. apply bind_unused_port_trace. Qed.

Lemma bind_unused_port_rerolls_witness :
  Pgtest.bind_unused_port Pgtest.bind_fuel env_up world_ports =
    (Ok 47251, snd (Pgtest.bind_unused_port Pgtest.bind_fuel env_up world_ports)) /\
  exists qs,
    w_ports world_ports =
      qs ++ 47251 :: w_ports (snd (Pgtest.bind_unused_port Pgtest.bind_fuel env_up world_ports)) /\
    Forall (fun q => Pgtest.is_valid_port (PyInt q) = false) qs /\
    Pgtest.is_valid_port (PyInt 47251) = true /\
    w_log (snd (Pgtest.bind_unused_port Pgtest.bind_fuel env_up world_ports)) =
      w_log world_ports ++ map EvBind (qs ++ [47251]) ++ map EvClose (rev (qs ++ [47251])) /\
    w_fs (snd (Pgtest.bind_unused_port Pgtest.bind_fuel env_up world_ports)) = w_fs world_ports /\
    w_clock (snd (Pgtest.bind_unused_port Pgtest.bind_fuel env_up world_ports)) =
      w_clock world_ports /\
    w_tmp (snd (Pgtest.bind_unused_port Pgtest.bind_fuel env_up world_ports)) = w_tmp world_ports.
Proof.
  assert (H : Pgtest.bind_unused_port Pgtest.bind_fuel env_up world_ports =
    (Ok 47251, snd (Pgtest.bind_unused_port Pgtest.bind_fuel env_up world_ports)))
    by (vm_compute; reflexivity).
  split; [exact H|]. exact (bind_unused_port_rerolls _ _ _ _ _ H).
Defined.



Lemma same_fs_legacy_wait_loop self endtime fuel :
  preserves same_fs (Legacy.wait_loop self endtime fuel).
Proof.
  induction fuel as [|f IH]; simpl; [preserves_auto|].
  unfold Legacy._is_connection_available. preserves_auto.
Qed.

Lemma same_fs_legacy_ready self cmd timeout :
  preserves same_fs (popen cmd ;;; Legacy._wait_for_server_ready self timeout).
Proof.
  unfold popen, Legacy._wait_for_server_ready. preserves_auto. apply same_fs_legacy_wait_loop.
Qed.

(** X10. In the legacy module, when the server starts and the readiness
    wait succeeds but the connection to [postgres] in [_create_database]
    fails, [with PGTest(...)] raises that connection error from
    [__enter__]: the body never runs, [__exit__] (and so [close]) is
    never called, and no cleanup happens: the base directory stays in
    place. *)
Theorem legacy_with_create_failure_leaks self (body : Legacy.PGTest -> M unit) env w w1 c :
  (popen (Legacy.start_cmd (e_win env) self) ;;; Legacy._wait_for_server_ready self 10)
    env w = (Ok tt, w1) ->
  e_connect env (w_clock w1) "postgres" = Some c ->
  with_stmt self Legacy.__enter__ Legacy.__exit__ body env w =
    (Raise (mkExn c "connect failed"),
     mkWorld (w_fs w1) (w_clock w1) (w_log w1 ++ [EvConnect "postgres"])
             (w_ports w1) (w_tmp w1)) /\
  w_fs w1 = w_fs w.
Proof.
  intros Hready Hc. split.
  - unfold with_stmt, Legacy.__enter__, Legacy.start_server.
    unfold bind at 1 2 3. unfold ask at 1. cbv beta iota.
    unfold bind at 1. unfold try_except at 1. rewrite Hready.
    unfold try_except, Legacy._create_database, pg_connect, bind, emit, ask, utcnow, get, ret,
      raise, raise_exn.
    simpl. rewrite Hc. reflexivity.
  - pose proof (same_fs_legacy_ready self (Legacy.start_cmd (e_win env) self) 10 env w) as H.
    unfold same_fs in H. rewrite Hready in H. exact H.
Qed.
Lemma legacy_with_create_failure_leaks_witness :
  let pre := (popen (Legacy.start_cmd (e_win env_no_db) legacy_fixture) ;;;
              Legacy._wait_for_server_ready legacy_fixture 10) env_no_db world_dirs in
  let w1 := snd pre in
  fst pre = Ok tt /\ e_connect env_no_db (w_clock w1) "postgres" = Some Pg8000Error /\
  with_stmt legacy_fixture Legacy.__enter__ Legacy.__exit__ (fun _ => ret tt) env_no_db world_dirs =
    (Raise (mkExn Pg8000Error "connect failed"),
     mkWorld (w_fs w1) (w_clock w1) (w_log w1 ++ [EvConnect "postgres"])
             (w_ports w1) (w_tmp w1)) /\
  w_fs w1 = w_fs world_dirs.
Proof.
  intros pre w1.
  assert (Hpre : pre = (Ok tt, w1)) by (unfold w1, pre; vm_compute; reflexivity).
  assert (Hc : e_connect env_no_db (w_clock w1) "postgres" = Some Pg8000Error)
    by (unfold w1, pre; vm_compute; reflexivity).
  split; [rewrite Hpre; reflexivity|]. split; [exact Hc|].
  exact (legacy_with_create_failure_leaks legacy_fixture (fun _ => ret tt) env_no_db world_dirs
           w1 Pg8000Error Hpre Hc).
Defined.



Lemma is_valid_port_true_inv v :
  Pgtest.is_valid_port v = true -> exists p, v = PyInt p /\ 1024 < p < 65535.
Proof.
  unfold Pgtest.is_valid_port. destruct v as [|b|p| | |]; simpl; try discriminate.
  - destruct b; discriminate.
  - intros H. exists p. split; [reflexivity|].
    apply andb_prop in H as [H1 H2]. apply Z.ltb_lt in H1, H2. lia.
Qed.

Lemma py_assert_ok b msg env w u w' :
  py_assert b msg env w = (Ok u, w') -> b = true /\ w' = w.
Proof. destruct b; unfold py_assert, ret, raise, raise_exn; intros H; inversion H; auto. Qed.

Lemma db_object_name_ok v env w b w' :
  Pgtest.is_valid_db_object_name v env w = (Ok b, w') ->
  exists s, v = PyStr s /\ b = Pgtest.re_match_ident s /\ w' = w.
Proof.
  destruct v; unfold Pgtest.is_valid_db_object_name, ret, raise, raise_exn; simpl;
    intros H; inversion H; eauto.
Qed.

(** X12. When the packaged [PGTest(...)] constructor succeeds, the
    [username] argument was a [str] matching the identifier pattern and
    is the fixture's user name, the port lies strictly between 1024 and
    65535 and is the [port] argument whenever that argument was truthy,
    and [url] is [postgresql://<user>@localhost:<port>/postgres]. *)
Theorem init_success_fields username port log_file no_cleanup copy_cluster base_dir pg_ctl
    max_connections env w self :
  fst (Pgtest.__init__ username port log_file no_cleanup copy_cluster base_dir pg_ctl
         max_connections env w) = Ok self ->
  username = PyStr (Pgtest.username self) /\
  Pgtest.re_match_ident (Pgtest.username self) = true /\
  1024 < Pgtest.port self < 65535 /\
  (py_truthy port = true -> port = PyInt (Pgtest.port self)) /\
  Pgtest.url self = ("postgresql://" ++ Pgtest.username self ++ "@localhost:"
                     ++ py_str_int (Pgtest.port self) ++ "/postgres")%string.
Proof.
  destruct (Pgtest.__init__ _ _ _ _ _ _ _ _ env w) as [r w'] eqn:E. simpl. intros ->.
  unfold Pgtest.__init__ in E. cbv zeta in E.
  apply bind_ok_inv in E as (ok & w1 & Hname & E).
  apply bind_ok_inv in E as (u1 & w2 & Hok & E).
  apply bind_ok_inv in E as (exe & w3 & _ & E).
  apply bind_ok_inv in E as (u2 & w4 & _ & E).
  apply bind_ok_inv in E as (p & w5 & Hport & E).
  repeat (apply bind_ok_inv in E; destruct E as (? & ? & _ & E)).
  unfold ret in E. injection E as <- _. simpl.
  apply db_object_name_ok in Hname as (s & -> & -> & _).
  apply py_assert_ok in Hok as [Hok _].
  assert (Hp : 1024 < p < 65535 /\ (py_truthy port = true -> port = PyInt p)).
  { destruct (py_truthy port).
    - apply bind_ok_inv in Hport as (u & wv & Hv & Hr).
      apply py_assert_ok in Hv as [Hv _]. unfold ret in Hr. injection Hr as <- _.
      apply is_valid_port_true_inv in Hv as (q & -> & Hq). simpl. auto.
    - destruct (bind_unused_port_trace _ _ _ _ _ Hport) as (_ & _ & _ & Hv & _).
      apply is_valid_port_true_inv in Hv as (q & Hq & Hr). injection Hq as ->.
      split; [exact Hr|discriminate]. }
  destruct Hp as [Hr Hpt]. auto 6.
Qed.
Lemma init_success_fields_witness :
  fst (Pgtest.__init__ (PyStr "postgres") PyNone None false None None None (PyInt 11)
         env_up world0) = Ok (fixture false) /\
  PyStr "postgres" = PyStr (Pgtest.username (fixture false)) /\
  Pgtest.re_match_ident (Pgtest.username (fixture false)) = true /\
  1024 < Pgtest.port (fixture false) < 65535 /\
  (py_truthy PyNone = true -> PyNone = PyInt (Pgtest.port (fixture false))) /\
  Pgtest.url (fixture false) = ("postgresql://" ++ Pgtest.username (fixture false) ++ "@localhost:"
                     ++ py_str_int (Pgtest.port (fixture false)) ++ "/postgres")%string.
Proof.
  assert (H : fst (Pgtest.__init__ (PyStr "postgres") PyNone None false None None None (PyInt 11)
                     env_up world0) = Ok (fixture false)) by (vm_compute; reflexivity).
  split; [exact H|]. exact (init_success_fields _ _ _ _ _ _ _ _ _ _ _ H).
Defined.


Lemma str_length_app x y : String.length (x ++ y) = (String.length x + String.length y)%nat.
Proof. induction x as [|c x IH]; simpl; [reflexivity|]. rewrite IH. reflexivity. Qed.

Lemma prefix_length s t : String.prefix s t = true -> (String.length s <= String.length t)%nat.
Proof.
  revert t. induction s as [|c s IH]; intros t H; simpl; [lia|].
  destruct t as [|c' t]; [discriminate|]. rewrite prefix_cons in H.
  destruct (ascii_dec c c'); [|discriminate]. simpl. apply IH in H. lia.
Qed.

Lemma prefix_app_l a x y : String.prefix (a ++ x) (a ++ y) = String.prefix x y.
Proof.
  induction a as [|c a IH]; [reflexivity|].
  rewrite !append_cons, prefix_cons. destruct (ascii_dec c c); [exact IH|congruence].
Qed.

Lemma str_app_cancel_l a x y : (a ++ x)%string = (a ++ y)%string -> x = y.
Proof.
  induction a as [|c a IH]; [auto|]. rewrite !append_cons. intros H. injection H. exact IH.
Qed.

Lemma last_char_cons c u :
  last_char (String c u) = match u with EmptyString => Some c | _ => last_char u end.
Proof. unfold last_char. destruct u as [|c' u]; reflexivity. Qed.

Lemma last_char_app_r s t : t <> EmptyString -> last_char (s ++ t) = last_char t.
Proof.
  intros Ht. induction s as [|c s IH]; [reflexivity|].
  rewrite append_cons, last_char_cons, IH.
  destruct (s ++ t)%string eqn:E; [|reflexivity].
  destruct s, t; try discriminate. contradiction.
Qed.

Lemma path_join_sep b : exists sep, forall x, path_join b x = (b ++ sep ++ x)%string.
Proof.
  unfold path_join. destruct (String.eqb b EmptyString) eqn:Hb.
  - apply String.eqb_eq in Hb. subst b. exists EmptyString. reflexivity.
  - destruct (bool_decide (last_char b = Some "/"%char)).
    + exists EmptyString. reflexivity.
    + exists "/"%string. reflexivity.
Qed.

Lemma path_join_truthy b x :
  x <> EmptyString -> truthy_path (Some (path_join b x)) = true.
Proof.
  intros Hx. destruct (path_join_sep b) as [sep Hsep]. rewrite Hsep. simpl.
  destruct (String.eqb_spec (b ++ sep ++ x) EmptyString) as [H|H]; [|reflexivity].
  apply (f_equal String.length) in H. rewrite !str_length_app in H.
  destruct x; [contradiction|]. simpl in H. lia.
Qed.

Lemma path_join_data_not_under b :
  under (path_join b "data") b = false /\
  under (path_join b "data") (path_join b "tmp") = false.
Proof.
  destruct (path_join_sep b) as [sep Hsep]. rewrite !Hsep.
  assert (Hc : path_join (b ++ sep ++ "data") EmptyString = (b ++ sep ++ "data/")%string).
  { unfold path_join.
    replace (String.eqb (b ++ sep ++ "data") EmptyString) with false
      by (destruct b; [destruct sep|]; reflexivity).
    rewrite (str_app_assoc b sep "data"), last_char_app_r by discriminate.
    rewrite bool_decide_eq_false_2 by (vm_compute; congruence).
    rewrite <- !str_app_assoc. reflexivity. }
  unfold under. rewrite Hc. split.
  - apply orb_false_iff. split.
    + apply String.eqb_neq. intros H.
      apply (f_equal String.length) in H. rewrite !str_length_app in H. simpl in H. lia.
    + destruct (String.prefix (b ++ sep ++ "data/") b) eqn:Hp; [|reflexivity].
      apply prefix_length in Hp. rewrite !str_length_app in Hp. simpl in Hp. lia.
  - apply orb_false_iff. split.
    + apply String.eqb_neq. intros H.
      apply str_app_cancel_l, str_app_cancel_l in H. discriminate H.
    + rewrite !str_app_assoc, prefix_app_l. reflexivity.
Qed.

Lemma create_dirs_run self env w u w' :
  Pgtest._create_dirs self env w = (Ok u, w') ->
  w_fs w ⊆ w_fs w' /\
  (truthy_path (Some (Pgtest.base_dir self)) = true -> Pgtest.base_dir self ∈ w_fs w') /\
  (truthy_path (Some (Pgtest.cluster self)) = true -> Pgtest.cluster self ∈ w_fs w') /\
  (forall d, Pgtest.listen_socket_dir self = Some d -> truthy_path (Some d) = true ->
             d ∈ w_fs w').
Proof.
  unfold Pgtest._create_dirs, Pgtest.cleanup_on_error, try_except.
  destruct (Pgtest.listen_socket_dir self) as [d|]; simpl;
  unfold bind, ret, path_exists, get, makedirs, set_fs; simpl;
  repeat (match goal with
          | |- context [String.eqb ?x EmptyString] => destruct (String.eqb x EmptyString) eqn:?
          | |- context [bool_decide ?P] => case_bool_decide
          end; simpl);
  intros Hrun; injection Hrun as _ <-; simpl;
  repeat split; intros; simplify_eq; simpl in *;
  try (match goal with H1 : negb ?b = true, H2 : ?b = true |- _ =>
         rewrite H2 in H1; discriminate H1 end);
  set_solver.
Qed.

Lemma cleanup_on_error_ok {A} self (m : M A) env w a w' :
  Pgtest.cleanup_on_error self m env w = (Ok a, w') -> m env w = (Ok a, w').
Proof.
  unfold Pgtest.cleanup_on_error, try_except.
  destruct (m env w) as [[b|e|] w1]; [auto| |discriminate].
  unfold Pgtest._cleanup, bind, raise_exn, ret, rmtree_ignore_errors, emit, get, set_fs.
  destruct (Pgtest.no_cleanup self); simpl; discriminate.
Qed.

Lemma ok_same_fs {A} (m : M A) env w a w' :
  preserves same_fs m -> m env w = (Ok a, w') -> w_fs w' = w_fs w.
Proof. intros Hp Hm. specialize (Hp env w). rewrite Hm in Hp. exact Hp. Qed.

Lemma same_fs_which n : preserves same_fs (Pgtest.which n).
Proof. unfold Pgtest.which. preserves_auto. Qed.

Lemma same_fs_is_valid_cluster_dir p : preserves same_fs (Pgtest.is_valid_cluster_dir p).
Proof. unfold Pgtest.is_valid_cluster_dir. preserves_auto; apply same_fs_which. Qed.

Lemma same_fs_py_assert b msg : preserves same_fs (py_assert b msg).
Proof. unfold py_assert. preserves_auto. Qed.

Lemma init_base_dir_ok self env w u w' :
  Pgtest._init_base_dir self env w = (Ok u, w') ->
  (Pgtest.cluster self ∈ w_fs w -> Pgtest.cluster self ∈ w_fs w') /\
  (forall x, x ∈ w_fs w -> under (Pgtest.cluster self) x = false -> x ∈ w_fs w').
Proof.
  intros H. apply cleanup_on_error_ok in H.
  apply bind_ok_inv in H as (u1 & w1 & HA & H).
  apply bind_ok_inv in H as (v & w2 & Hv & H).
  apply (ok_same_fs _ _ _ _ _ (same_fs_is_valid_cluster_dir _)) in Hv.
  apply (ok_same_fs _ _ _ _ _ (same_fs_py_assert _ _)) in H.
  rewrite H, Hv. clear H Hv.
  destruct (truthy_path (Pgtest.copy_cluster self)).
  - apply bind_ok_inv in HA as (u2 & w3 & Hrm & Hcp).
    unfold rmtree, path_exists, bind, get, ret, raise, raise_exn in Hrm. simpl in Hrm.
    case_bool_decide; [|discriminate].
    unfold rmtree_ignore_errors, emit, get, set_fs, bind in Hrm. simpl in Hrm.
    injection Hrm as _ <-.
    unfold copytree, path_exists, bind, get, ret, raise, raise_exn, set_fs in Hcp. simpl in Hcp.
    case_bool_decide as Hin; [discriminate|]. injection Hcp as _ <-. simpl.
    split; [set_solver|]. intros x Hx Hu. apply elem_of_union_l, elem_of_filter. auto.
  - apply bind_ok_inv in HA as (r & w3 & Hr & Hif).
    apply (ok_same_fs _ _ _ _ _ (same_fs_run_shell _)) in Hr.
    destruct (Pgtest.str_nonempty (snd r)); [discriminate|].
    unfold ret in Hif. injection Hif as _ <-. rewrite Hr. auto.
Qed.

Lemma set_dir_permissions_ok self env w u w' :
  Pgtest._set_dir_permissions self env w = (Ok u, w') -> w_fs w' = w_fs w.
Proof.
  intros H. apply cleanup_on_error_ok in H. revert H. apply ok_same_fs.
  preserves_auto; unfold path_exists; preserves_auto.
Qed.

Lemma start_server_ok self env w u w' :
  Pgtest._start_server self env w = (Ok u, w') -> w_fs w' = w_fs w.
Proof.
  rewrite start_server_unfold. unfold try_except.
  assert (Hp : preserves same_fs (popen (Pgtest.start_cmd (e_win env) self) ;;;
                                  Pgtest._wait_for_server_ready self 5)).
  { unfold popen. preserves_auto. apply same_fs_wait. }
  specialize (Hp env w). unfold same_fs in Hp.
  destruct ((popen (Pgtest.start_cmd (e_win env) self) ;;;
             Pgtest._wait_for_server_ready self 5) env w) as [[a|e1|] w1];
    simpl in Hp; [intros H; injection H as _ <-; exact Hp| |discriminate].
  destruct (start_handler_run self e1 env w1) as [Hr _].
  destruct (start_handler self e1 env w1) as [[]]; simpl in Hr; discriminate.
Qed.

Lemma init_base_ok (base_dir : option string) env w base w' :
  (if truthy_path base_dir then
     ex <- path_exists (py_str_opt base_dir) ;;
     py_assert ex ("Directory does not exist: " ++ py_str_opt base_dir)%string ;;;
     ret (py_str_opt base_dir)
   else mkdtemp) env w = (Ok base, w') ->
  base ∈ w_fs w' /\ w_fs w ⊆ w_fs w'.
Proof.
  destruct (truthy_path base_dir).
  - unfold path_exists, bind, get, ret, py_assert, raise, raise_exn. simpl.
    case_bool_decide; [|discriminate]. intros E. injection E as <- <-. set_solver.
  - unfold mkdtemp, bind, get, put, ret, stuck. simpl.
    destruct (w_tmp w) as [|d ds]; [discriminate|]. intros E. injection E as <- <-.
    simpl. set_solver.
Qed.

(** X13. When the packaged [PGTest(...)] constructor succeeds, the
    cluster directory is [<base>/data], and the base directory, the
    cluster directory and (on POSIX systems) the socket directory
    [<base>/tmp] all exist afterwards. *)
Theorem init_success_dirs username port log_file no_cleanup copy_cluster base_dir pg_ctl
    max_connections env w self :
  fst (Pgtest.__init__ username port log_file no_cleanup copy_cluster base_dir pg_ctl
         max_connections env w) = Ok self ->
  let fs := w_fs (snd (Pgtest.__init__ username port log_file no_cleanup copy_cluster base_dir
                         pg_ctl max_connections env w)) in
  Pgtest.cluster self = path_join (Pgtest.base_dir self) "data" /\
  Pgtest.base_dir self ∈ fs /\ Pgtest.cluster self ∈ fs /\
  (forall d, Pgtest.listen_socket_dir self = Some d ->
     d = path_join (Pgtest.base_dir self) "tmp" /\ d ∈ fs).
Proof.
  destruct (Pgtest.__init__ _ _ _ _ _ _ _ _ env w) as [r w'] eqn:E. simpl. intros ->.
  unfold Pgtest.__init__ in E. cbv zeta in E.
  do 5 (apply bind_ok_inv in E; destruct E as (? & ? & _ & E)).
  apply bind_ok_inv in E as (base & w6 & Hbase & E).
  apply bind_ok_inv in E as (env' & w7 & Hask & E).
  unfold ask in Hask. injection Hask as <- <-.
  apply bind_ok_inv in E as (u8 & w8 & Hmc & E).
  apply py_assert_ok in Hmc as [_ ->].
  apply bind_ok_inv in E as (u9 & w9 & Hcd & E).
  apply bind_ok_inv in E as (u10 & w10 & Hib & E).
  apply bind_ok_inv in E as (u11 & w11 & Hsp & E).
  apply bind_ok_inv in E as (u12 & w12 & Hss & E).
  unfold ret in E. injection E as <- <-.
  apply init_base_ok in Hbase as [Hb _].
  apply create_dirs_run in Hcd as (Hsub & _ & Hc & Hs). simpl in Hc, Hs.
  apply init_base_dir_ok in Hib as [Hc' Hkeep]. simpl in Hc', Hkeep.
  apply set_dir_permissions_ok in Hsp. apply start_server_ok in Hss.
  destruct (path_join_data_not_under base) as [Hu1 Hu2].
  simpl. rewrite Hss, Hsp. split; [reflexivity|].
  split; [apply Hkeep; [apply Hsub; exact Hb|exact Hu1]|].
  split; [apply Hc', Hc, path_join_truthy; discriminate|].
  intros d Hd. destruct (e_win env); [discriminate|]. injection Hd as <-.
  split; [reflexivity|]. apply Hkeep; [|exact Hu2].
  apply (Hs _ eq_refl), path_join_truthy. discriminate.
Qed.
Lemma init_success_dirs_witness :
  fst (Pgtest.__init__ (PyStr "postgres") PyNone None false None None None (PyInt 11)
         env_up world0) = Ok (fixture false) /\
  let fs := w_fs (snd (Pgtest.__init__ (PyStr "postgres") PyNone None false None None
                         None (PyInt 11) env_up world0)) in
  Pgtest.cluster (fixture false) = path_join (Pgtest.base_dir (fixture false)) "data" /\
  Pgtest.base_dir (fixture false) ∈ fs /\ Pgtest.cluster (fixture false) ∈ fs /\
  (forall d, Pgtest.listen_socket_dir (fixture false) = Some d ->
     d = path_join (Pgtest.base_dir (fixture false)) "tmp" /\ d ∈ fs).
Proof.
  assert (H : fst (Pgtest.__init__ (PyStr "postgres") PyNone None false None None None (PyInt 11)
                     env_up world0) = Ok (fixture false)) by (vm_compute; reflexivity).
  split; [exact H|]. exact (init_success_dirs _ _ _ _ _ _ _ _ _ _ _ H).
Defined.




(* ---------- which ---------- *)

Lemma rfind_from_shift c s : forall i acc,
  rfind_from c s i acc = match rfind c s with Some k => Some (i + k)%nat | None => acc end.
Proof.
  unfold rfind. induction s as [|x s IH]; intros i acc; simpl; [reflexivity|].
  rewrite IH, (IH 1%nat). destruct (rfind_from c s 0 None) as [k|]; [f_equal; lia|].
  destruct (Ascii.eqb x c); [f_equal; lia|reflexivity].
Qed.

Lemma rfind_cons c x s :
  rfind c (String x s) =
  match rfind c s with Some k => Some (S k) | None => if Ascii.eqb x c then Some O else None end.
Proof. unfold rfind at 1. simpl. rewrite rfind_from_shift. reflexivity. Qed.

Lemma rfind_none c s : rfind c s = None <-> forall j, String.get j s <> Some c.
Proof.
  induction s as [|x s IH]; [unfold rfind; simpl; split; [discriminate|reflexivity]|].
  rewrite rfind_cons. split.
  - intros H [|j]; simpl.
    + destruct (rfind c s); [discriminate|]. destruct (Ascii.eqb x c) eqn:E; [discriminate|].
      apply Ascii.eqb_neq in E. congruence.
    + destruct (rfind c s); [discriminate|]. apply IH. reflexivity.
  - intros H. assert (Hs : rfind c s = None) by (apply IH; intros j; exact (H (S j))).
    rewrite Hs. destruct (Ascii.eqb x c) eqn:E; [|reflexivity].
    apply Ascii.eqb_eq in E. subst. exfalso. exact (H O eq_refl).
Qed.

Lemma rfind_some c s k :
  rfind c s = Some k -> String.get k s = Some c /\ forall j, (k < j)%nat -> String.get j s <> Some c.
Proof.
  revert k. induction s as [|x s IH]; intros k; [unfold rfind; simpl; discriminate|].
  rewrite rfind_cons. destruct (rfind c s) as [k'|] eqn:Hs.
  - intros H. injection H as <-. destruct (IH k' eq_refl) as [Hg Hl]. split; [exact Hg|].
    intros [|j] Hj; [lia|]. simpl. apply Hl. lia.
  - destruct (Ascii.eqb x c) eqn:E; [|discriminate]. intros H. injection H as <-.
    apply Ascii.eqb_eq in E. subst. split; [reflexivity|].
    intros [|j] Hj; [lia|]. simpl. apply rfind_none. exact Hs.
Qed.

Lemma get_substring0 j n s :
  String.get j (substring 0 n s) = if Nat.ltb j n then String.get j s else None.
Proof.
  destruct (Nat.ltb j n) eqn:E.
  - apply Nat.ltb_lt in E. rewrite substring_correct1 by exact E. f_equal. lia.
  - apply Nat.ltb_ge in E. apply substring_correct2. exact E.
Qed.

Lemma rstrip_char_slashes s :
  rstrip_char "/"%char s = EmptyString -> s = slashes (String.length s).
Proof.
  induction s as [|x s IH]; simpl; [reflexivity|].
  destruct (String.eqb (rstrip_char "/" s) EmptyString) eqn:E1;
    destruct (Ascii.eqb x "/") eqn:E2; simpl; try discriminate.
  intros _. apply String.eqb_eq in E1. apply Ascii.eqb_eq in E2. subst. rewrite <- IH by exact E1.
  reflexivity.
Qed.

Lemma split_head_nonempty p :
  fst (Posixpath.split p) <> EmptyString <-> has_slash p.
Proof.
  unfold Posixpath.split, has_slash. cbv zeta.
  destruct (rfind "/" p) as [k|] eqn:Hr.
  - apply rfind_some in Hr as [Hg _].
    assert (Hh : String.get k (substring 0 (S k) p) = Some "/"%char)
      by (rewrite get_substring0, (proj2 (Nat.ltb_lt k (S k))) by lia; exact Hg).
    split; [intros _; exists k; exact Hg|intros _].
    destruct (negb (String.eqb (substring 0 (S k) p) EmptyString) &&
              negb (String.eqb (substring 0 (S k) p)
                               (slashes (String.length (substring 0 (S k) p))))) eqn:E;
      simpl.
    + apply andb_true_iff in E as [_ E]. apply negb_true_iff, String.eqb_neq in E.
      intros H. apply E. apply rstrip_char_slashes. exact H.
    + intros H. rewrite H in Hh. discriminate.
  - replace (substring 0 0 p) with EmptyString by (destruct p; reflexivity). simpl.
    split; [intros H; exfalso; apply H; reflexivity|].
    intros [j Hj]. exfalso. exact (proj1 (rfind_none _ _) Hr j Hj).
Qed.

Lemma splitext_fst_shape s :
  fst (Posixpath.splitext s) = s \/
  exists d, fst (Posixpath.splitext s) = substring 0 d s /\
            forall j, String.get j s = Some "/"%char -> (j < d)%nat.
Proof.
  unfold Posixpath.splitext. cbv zeta.
  destruct (rfind "/" s) as [k|] eqn:Hk; destruct (rfind "." s) as [d|] eqn:Hd;
    repeat match goal with
           | |- context [if ?b then _ else _] => destruct b eqn:?
           end; simpl; auto; right; eexists; (split; [reflexivity|intros j Hj]);
    match goal with H : (_ <? _) = true |- _ => apply Z.ltb_lt in H end.
  all: try (exfalso; lia).
  all: try (exfalso; exact (proj1 (rfind_none _ _) Hk j Hj)).
  apply rfind_some in Hk as [_ Hl]. destruct (Nat.lt_ge_cases k j) as [Hkj|Hjk];
    [exfalso; exact (Hl j Hkj Hj)|lia].
Qed.

Lemma splitext_has_slash s : has_slash (fst (Posixpath.splitext s)) <-> has_slash s.
Proof.
  unfold has_slash. destruct (splitext_fst_shape s) as [->|[d [-> Hd]]]; [reflexivity|].
  split.
  - intros [j Hj]. rewrite get_substring0 in Hj. destruct (Nat.ltb j d); [|discriminate].
    exists j. exact Hj.
  - intros [j Hj]. exists j. rewrite get_substring0.
    rewrite (proj2 (Nat.ltb_lt j d)) by exact (Hd j Hj). exact Hj.
Qed.

Lemma which_dir_part s :
  negb (String.eqb (fst (Posixpath.split (fst (Posixpath.splitext s)))) EmptyString) = true
  <-> has_slash s.
Proof.
  rewrite <- splitext_has_slash, <- split_head_nonempty, negb_true_iff, String.eqb_neq.
  reflexivity.
Qed.

Lemma normpath_nonempty p : Posixpath.normpath p <> EmptyString.
Proof.
  unfold Posixpath.normpath. destruct (String.eqb p EmptyString); [discriminate|].
  cbv zeta.
  match goal with |- (if String.eqb ?x EmptyString then _ else _) <> _ =>
    destruct (String.eqb x EmptyString) eqn:E end; [discriminate|].
  intros H. rewrite H in E. discriminate.
Qed.


(** X16. The packaged [which] treats its argument as a path exactly when
    it contains a ['/']: such a path that is executable is returned
    normalised, whatever [PATH] says; a bare name is looked up in
    [PATH], and raises [KeyError] when [PATH] is not set. *)
Theorem pgtest_which_path_or_name env s :
  (has_slash s -> PgtestOS.is_executable env s = true ->
   PgtestOS.which env (PyStr s) = WFound (Posixpath.normpath s)) /\
  (~ has_slash s -> s_path env = None ->
   PgtestOS.which env (PyStr s) = WRaise "KeyError" "'PATH'").
Proof.
  unfold PgtestOS.which. cbv zeta. split; intros H1 H2.
  - rewrite (proj2 (which_dir_part s) H1), H2. reflexivity.
  - destruct (negb _) eqn:Hd; [apply which_dir_part in Hd; contradiction|].
    rewrite H2. reflexivity.
Qed.
Lemma pgtest_which_path_or_name_witness :
  PgtestOS.which sys_usr_bin (PyStr "/usr/bin/pg_ctl") =
    WFound (Posixpath.normpath "/usr/bin/pg_ctl") /\
  PgtestOS.which sys_no_path (PyStr "pg_ctl") = WRaise "KeyError" "'PATH'".
Proof.
  split.
  - apply (proj1 (pgtest_which_path_or_name sys_usr_bin "/usr/bin/pg_ctl")).
    + exists O. reflexivity.
    + reflexivity.
  - apply (proj2 (pgtest_which_path_or_name sys_no_path "pg_ctl")); [|reflexivity].
    intros [j Hj]. exact (proj1 (rfind_none "/"%char "pg_ctl") eq_refl j Hj).
Defined.


Lemma legacy_search_path_sound env dirs f fe p :
  LegacyOS.search_path env dirs f fe = Some p ->
  exists q, LegacyOS.is_exe env q = true /\ p = Posixpath.normpath q.
Proof.
  induction dirs as [|d dirs IH]; simpl; [discriminate|].
  repeat match goal with |- (if ?b then _ else _) = _ -> _ => destruct b eqn:? end;
    first [exact IH|intros H; injection H as <-; eauto].
Qed.

Lemma legacy_first_exe_sound env l p :
  LegacyOS.first_exe env l = Some p ->
  exists q, LegacyOS.is_exe env q = true /\ p = Posixpath.normpath q.
Proof.
  induction l as [|x l IH]; simpl; [discriminate|].
  destruct (LegacyOS.is_exe env x) eqn:E; [intros H; injection H as <-; eauto|exact IH].
Qed.

Lemma legacy_which_sound env s :
  match LegacyOS.which env s with
  | WFound p => exists q, LegacyOS.is_exe env q = true /\ p = Posixpath.normpath q
  | WNone => s_locate env ("/" ++ s ++ "$")%string <> LocMissing
  | WRaise c _ =>
      c = "UnboundLocalError"%string \/ c = "KeyError"%string \/ c = "OSError"%string
  end.
Proof.
  assert (Hloc :
    match match s_locate env ("/" ++ s ++ "$")%string with
          | LocOut results =>
              match LegacyOS.first_exe env (py_split newline results) with
              | Some p => WFound p
              | None => WNone
              end
          | LocFail => WNone
          | LocMissing => WRaise "OSError" "[Errno 2] No such file or directory"
          end with
    | WFound p => exists q, LegacyOS.is_exe env q = true /\ p = Posixpath.normpath q
    | WNone => s_locate env ("/" ++ s ++ "$")%string <> LocMissing
    | WRaise c _ =>
        c = "UnboundLocalError"%string \/ c = "KeyError"%string \/ c = "OSError"%string
    end).
  { destruct (s_locate env _) eqn:El; try discriminate; auto.
    destruct (LegacyOS.first_exe env _) eqn:E; [apply legacy_first_exe_sound in E; exact E|].
    discriminate. }
  unfold LegacyOS.which. cbv zeta.
  destruct (negb _).
  - destruct (s_isfile env s); [|destruct (s_isfile env _)]; auto;
      match goal with |- context [if LegacyOS.is_exe env ?q then _ else _] =>
        destruct (LegacyOS.is_exe env q) eqn:E; [eauto|exact Hloc] end.
  - destruct (s_path env) as [pv|]; simpl; [|auto].
    destruct (LegacyOS.search_path env _ s _) eqn:E0; simpl; [|exact Hloc].
    apply legacy_search_path_sound in E0. exact E0.
Qed.
(** X18. The legacy [which] treats its argument as a path exactly when it
    contains a ['/']: when neither that file nor its [.exe] variant
    exists it raises [UnboundLocalError] ([file_path] is read before any
    assignment); when the file exists and is executable it is returned
    normalised; a bare name is looked up in [PATH], and raises
    [KeyError] when [PATH] is not set. *)
Theorem legacy_which_path_or_name env s :
  (has_slash s -> s_isfile env s = false ->
   s_isfile env (fst (Posixpath.splitext s) ++ ".exe") = false ->
   LegacyOS.which env s =
     WRaise "UnboundLocalError" "local variable 'file_path' referenced before assignment") /\
  (has_slash s -> s_isfile env s = true -> LegacyOS.is_exe env s = true ->
   LegacyOS.which env s = WFound (Posixpath.normpath s)) /\
  (~ has_slash s -> s_path env = None -> LegacyOS.which env s = WRaise "KeyError" "'PATH'").
Proof.
  unfold LegacyOS.which. cbv zeta. split; [|split].
  - intros H1 H2 H3. rewrite (proj2 (which_dir_part s) H1), H2, H3. reflexivity.
  - intros H1 H2 H3. rewrite (proj2 (which_dir_part s) H1), H2, H3. reflexivity.
  - intros H1 H2. destruct (negb _) eqn:Hd; [apply which_dir_part in Hd; contradiction|].
    rewrite H2. reflexivity.
Qed.
Lemma legacy_which_path_or_name_witness :
  LegacyOS.which sys_no_path "/opt/pg/pg_ctl" =
    WRaise "UnboundLocalError" "local variable 'file_path' referenced before assignment" /\
  LegacyOS.which sys_usr_bin "/usr/bin/pg_ctl" = WFound (Posixpath.normpath "/usr/bin/pg_ctl") /\
  LegacyOS.which sys_no_path "pg_ctl" = WRaise "KeyError" "'PATH'".
Proof.
  destruct (legacy_which_path_or_name sys_no_path "/opt/pg/pg_ctl") as [H1 _].
  destruct (legacy_which_path_or_name sys_usr_bin "/usr/bin/pg_ctl") as [_ [H2 _]].
  destruct (legacy_which_path_or_name sys_no_path "pg_ctl") as [_ [_ H3]].
  split; [apply H1; [exists O; reflexivity|reflexivity|reflexivity]|].
  split; [apply H2; [exists O; reflexivity|reflexivity|reflexivity]|].
  apply H3; [|reflexivity].
  intros [j Hj]. exact (proj1 (rfind_none "/"%char "pg_ctl") eq_refl j Hj).
Defined.


(** X19. The legacy [get_exe_path] passes on what [which] returns or
    raises, except that a [None] becomes [IOError('File not found:
    <name>')]; it never returns [None], and its test for an empty path
    never fires because [normpath] never returns an empty string. *)
Theorem legacy_get_exe_path_result env s :
  LegacyOS.get_exe_path env s =
    match LegacyOS.which env s with
    | WNone => WRaise "IOError" ("File not found: " ++ s)%string
    | r => r
    end /\
  LegacyOS.get_exe_path env s <> WNone.
Proof.
  assert (H : LegacyOS.get_exe_path env s =
    match LegacyOS.which env s with
    | WNone => WRaise "IOError" ("File not found: " ++ s)%string
    | r => r
    end).
  { pose proof (legacy_which_sound env s) as Ho. unfold LegacyOS.get_exe_path.
    destruct (LegacyOS.which env s) as [p| |c m]; try reflexivity.
    destruct Ho as [q [_ ->]].
    destruct (String.eqb (Posixpath.normpath q) EmptyString) eqn:E; [|reflexivity].
    apply String.eqb_eq, normpath_nonempty in E. contradiction. }
  split; [exact H|]. rewrite H. destruct (LegacyOS.which env s); discriminate.
Qed.

(** X20. In the legacy module, when starting the server or its readiness
    wait raises (a failed [Popen], or the [TimeoutError] after 10
    seconds), [start_server] re-raises that same exception after removing
    the base directory tree (unless [no_cleanup]). *)
Theorem legacy_start_server_wait_failure self env w e w1 :
  (popen (Legacy.start_cmd (e_win env) self) ;;; Legacy._wait_for_server_ready self 10)
    env w = (Raise e, w1) ->
  fst (Legacy.start_server self env w) = Raise e /\
  w_fs (snd (Legacy.start_server self env w)) =
    cleaned_fs (Legacy.no_cleanup self) (Legacy.base_dir self) (w_fs w).
Proof.
  intros Hready.
  pose proof (same_fs_legacy_ready self (Legacy.start_cmd (e_win env) self) 10 env w) as Hfs.
  unfold same_fs in Hfs. rewrite Hready in Hfs. simpl in Hfs.
  assert (H : Legacy.start_server self env w = (Raise e, snd (Legacy.cleanup self env w1))).
  { unfold Legacy.start_server. unfold bind at 1 2. unfold ask at 1. cbv beta iota.
    unfold try_except at 1. rewrite Hready.
    unfold Legacy.cleanup, rmtree_ignore_errors, bind, emit, get, set_fs, ret, raise_exn.
    destruct (Legacy.no_cleanup self); reflexivity. }
  rewrite H. split; [reflexivity|].
  unfold Legacy.cleanup, cleaned_fs, rmtree_ignore_errors, bind, emit, get, set_fs, ret.
  destruct (Legacy.no_cleanup self); simpl; rewrite Hfs; reflexivity.
Qed.
Lemma legacy_start_server_wait_failure_witness :
  let pre := (popen (Legacy.start_cmd (e_win env_down) legacy_fixture) ;;;
              Legacy._wait_for_server_ready legacy_fixture 10) env_down world_dirs in
  pre = (Raise timeout_exn, snd pre) /\
  fst (Legacy.start_server legacy_fixture env_down world_dirs) = Raise timeout_exn /\
  w_fs (snd (Legacy.start_server legacy_fixture env_down world_dirs)) =
    cleaned_fs (Legacy.no_cleanup legacy_fixture) (Legacy.base_dir legacy_fixture) (w_fs world_dirs).
Proof.
  intros pre.
  assert (Hpre : pre = (Raise timeout_exn, snd pre)) by (unfold pre; vm_compute; reflexivity).
  split; [exact Hpre|].
  exact (legacy_start_server_wait_failure legacy_fixture env_down world_dirs timeout_exn (snd pre) Hpre).
Defined.

